(** * A forum client: session store, API gateway, feed and comment views

    Shallow embedding of the browser client
    ([services/auth.js], [services/api.js], [utils/theme.js],
    [pages/Home.js], [pages/PostDetail.js], [pages/Login.js] and
    [components/Comments.js]) and the properties of its session state
    machine and of its feed / comment synchronisation.

    Conventions of the embedding.
    - A JavaScript object that the code uses as a struct is a record; the
      browser's [localStorage] is a finite map from keys to strings.
    - The module-level variables of [auth.js], the storage, the requests
      handed to axios and the [alert] boxes shown make up the [world];
      service functions live in a state monad over it.
    - An [await] on a request is a call of [axios] that records the request
      and continues with the reply the backend gave; the reply is an
      argument of the function, so every statement holds for all backends.
    - React state is a record per component; an event handler maps the
      state of the render it was created in to the next state.
    - [console.log] / [console.error] output is not part of the model. *)

From Stdlib Require Import Ascii.
From stdpp Require Import gmap strings list fin_maps pretty sorting.

Open Scope Z_scope.
#[local] Set Warnings "-register-all".

(** ** JavaScript values and strings *)

Module JS.

(** JSON payloads whose shape the client does not fix (error bodies,
    request bodies).  Numbers are restricted to integers. *)
Inductive json : Type :=
  | JNull
  | JBool (b : bool)
  | JNum (n : Z)
  | JStr (s : string)
  | JArr (items : list json)
  | JObj (fields : list (string * json)).

(** [!!s] for a string: only the empty string is falsy. *)
Definition str_truthy (s : string) : bool := negb (String.eqb s "").

(** [!!v] for a value that may be [null] (a [getItem] result, a module
    variable initialised to [null]). *)
Definition opt_truthy (o : option string) : bool :=
  match o with
  | Some s => str_truthy s
  | None => false
  end.

(** [!!v] for a JSON value; [None] stands for [undefined]. *)
Definition truthy (v : option json) : bool :=
  match v with
  | None | Some JNull => false
  | Some (JBool b) => b
  | Some (JNum n) => negb (n =? 0)
  | Some (JStr s) => str_truthy s
  | Some (JArr _) | Some (JObj _) => true
  end.

(** [a || b]. *)
Definition or_else (a : option json) (b : json) : json :=
  match a with
  | Some v => if truthy a then v else b
  | None => b
  end.

(** Property access [v?.k] on a value that may be [undefined]. *)
Fixpoint assoc (k : string) (fields : list (string * json)) : option json :=
  match fields with
  | [] => None
  | (k', v) :: rest => if String.eqb k k' then Some v else assoc k rest
  end.

Definition get (k : string) (v : option json) : option json :=
  match v with
  | Some (JObj fields) => assoc k fields
  | _ => None
  end.

(** [typeof v === 'string'] *)
Definition is_string (v : json) : bool :=
  match v with JStr _ => true | _ => false end.

(** ToString, as applied by template literals and by [+] on a string. *)
Fixpoint to_string (v : json) : string :=
  match v with
  | JNull => "null"
  | JBool true => "true"
  | JBool false => "false"
  | JNum n => pretty n
  | JStr s => s
  | JArr items =>
      String.concat ","
        (map (fun x => match x with JNull => "" | _ => to_string x end) items)
  | JObj _ => "[object Object]"
  end.

Definition opt_to_string (v : option json) : string :=
  match v with
  | Some v => to_string v
  | None => "undefined"
  end.

(** A [getItem] result inside a template literal: [null] prints as
    the four letters "null". *)
Definition nullable_to_string (o : option string) : string :=
  match o with
  | Some s => s
  | None => "null"
  end.

(** *** [String.prototype.trim]

    Strings are kept as their UTF-8 bytes.  The white space that [trim]
    removes is TAB, LF, VT, FF, CR, SPACE and the following code points,
    given with their encodings:
    U+00A0 (C2 A0), U+1680 (E1 9A 80), U+2000..U+200A (E2 80 80..8A),
    U+2028, U+2029 (E2 80 A8, A9), U+202F (E2 80 AF), U+205F (E2 81 9F),
    U+3000 (E3 80 80), U+FEFF (EF BB BF). *)

Definition ws1 (a : N) : bool :=
  ((9 <=? a) && (a <=? 13) || (a =? 32))%N.

Definition ws2 (a b : N) : bool :=
  ((a =? 194) && (b =? 160))%N.

Definition ws3 (a b c : N) : bool :=
  ((a =? 225) && (b =? 154) && (c =? 128)
   || (a =? 226) && (b =? 128)
        && ((128 <=? c) && (c <=? 138) || (c =? 168) || (c =? 169) || (c =? 175))
   || (a =? 226) && (b =? 129) && (c =? 159)
   || (a =? 227) && (b =? 128) && (c =? 128)
   || (a =? 239) && (b =? 187) && (c =? 191))%N.

(** Strip leading white space from a byte sequence.  [fwd] tells whether
    the bytes are in reading order or reversed (used for the tail). *)
Fixpoint strip (fwd : bool) (l : list N) : list N :=
  match l with
  | [] => []
  | a :: l1 =>
      if ws1 a then strip fwd l1 else
      match l1 with
      | [] => l
      | b :: l2 =>
          if (if fwd then ws2 a b else ws2 b a) then strip fwd l2 else
          match l2 with
          | [] => l
          | c :: l3 =>
              if (if fwd then ws3 a b c else ws3 c b a) then strip fwd l3
              else l
          end
      end
  end.

Definition codes (s : string) : list N :=
  map N_of_ascii (String.list_ascii_of_string s).

Definition of_codes (l : list N) : string :=
  String.string_of_list_ascii (map ascii_of_N l).

Definition trim (s : string) : string :=
  of_codes (rev (strip false (rev (strip true (codes s))))).

(** *** [s.length] and [s.split(sep)]

    [s.length] counts UTF-16 code units: one for every code point that
    UTF-8 writes in one, two or three bytes, two for those it writes in
    four.  So it is the number of bytes that do not continue a sequence,
    plus the number of bytes that open a four-byte sequence. *)
Definition utf16_length (s : string) : nat :=
  let l := codes s in
  (List.length (List.filter (fun b => (b <? 128) || (192 <=? b))%N l)
   + List.length (List.filter (fun b => (240 <=? b)%N) l))%nat.

(** [s.split(sep)] for a separator of one ASCII character: the pieces
    between the separators, the empty string giving one empty piece. *)
Fixpoint split (sep : ascii) (s : string) : list string :=
  match s with
  | EmptyString => [EmptyString]
  | String c s' =>
      if Ascii.eqb c sep then EmptyString :: split sep s'
      else match split sep s' with
           | piece :: rest => String c piece :: rest
           | [] => [String c EmptyString]
           end
  end.

End JS.

Import JS.

(** ** The API gateway: requests and replies *)

Inductive http_method : Type := GET | POST | PUT | DELETE.

(** What is handed to [axios.get] / [axios.post]: the URL, the query
    parameters, the body and the headers. *)
Record request : Type := Request {
  req_method : http_method;
  req_url : string;
  req_params : list (string * json);
  req_data : option json;
  req_headers : list (string * string);
}.

(** The value a rejected request throws, as far as the client looks at
    it: [err.response?.data] ([None] when it is [undefined], as for a
    request that got no response) and [err.message]. *)
Record axios_error : Type := AxiosError {
  err_data : option json;
  err_message : string;
}.

(** The outcome of awaiting a request with payload type [A]. *)
Inductive reply (A : Type) : Type :=
  | Resolved (data : A)
  | Rejected (err : axios_error).
Arguments Resolved {A} data.
Arguments Rejected {A} err.

(** ** The world: module variables, storage and observable effects *)

Record world : Type := World {
  guestMode : bool;                      (* auth.js: let guestMode *)
  currentUsername : option string;       (* auth.js: let currentUsername *)
  localStorage : gmap string string;
  network : list request;                (* requests issued, oldest first *)
  alerts : list string;                  (* alert() boxes shown, oldest first *)
}.

(** A freshly loaded page: the module variables have their initial values
    and only the storage survives. *)
Definition page_load (storage : gmap string string) : world :=
  World false None storage [] [].

Definition M (A : Type) : Type := world -> A * world.

#[global] Instance M_ret : MRet M := fun A a w => (a, w).
#[global] Instance M_bind : MBind M := fun A B f m w =>
  let (a, w') := m w in f a w'.

Definition exec {A} (m : M A) (w : world) : world := snd (m w).
Definition eval {A} (m : M A) (w : world) : A := fst (m w).

Definition getItem (k : string) : M (option string) :=
  fun w => (localStorage w !! k, w).

Definition setItem (k v : string) : M unit :=
  fun w => (tt, World (guestMode w) (currentUsername w)
                      (<[k := v]> (localStorage w)) (network w) (alerts w)).

Definition removeItem (k : string) : M unit :=
  fun w => (tt, World (guestMode w) (currentUsername w)
                      (delete k (localStorage w)) (network w) (alerts w)).

Definition get_guestMode : M bool :=
  fun w => (guestMode w, w).

Definition set_guestMode (b : bool) : M unit :=
  fun w => (tt, World b (currentUsername w) (localStorage w)
                      (network w) (alerts w)).

Definition get_currentUsername : M (option string) :=
  fun w => (currentUsername w, w).

Definition set_currentUsername (u : option string) : M unit :=
  fun w => (tt, World (guestMode w) u (localStorage w)
                      (network w) (alerts w)).

Definition alert (msg : string) : M unit :=
  fun w => (tt, World (guestMode w) (currentUsername w) (localStorage w)
                      (network w) (alerts w ++ [msg])).

(** [await axios.<method>(...)]: the request goes out and the backend's
    reply comes back. *)
Definition axios {A} (req : request) (r : reply A) : M (reply A) :=
  fun w => (r, World (guestMode w) (currentUsername w) (localStorage w)
                     (network w ++ [req]) (alerts w)).

(** The session part of the world: what [auth.js] owns. *)
Definition session (w : world) : bool * option string * gmap string string :=
  (guestMode w, currentUsername w, localStorage w).

(** ** Data model *)

Module Post.
Record topic_t : Type := Topic { topic_id : Z; topic_name : string }.
Record creator_t : Type := Creator {
  user_id : Z;
  username : string;
  reputation_tier : option Z;            (* tier_number, when present *)
}.
Record t : Type := mk {
  id : Z;
  title : string;
  content : string;
  topic : topic_t;
  creator : creator_t;
  created_at : string;
  likes_count : Z;
  comments_count : Z;
  is_liked : bool;
}.

(** [{ ...post, is_liked: liked, likes_count: likes_count }] *)
Definition with_like (post : t) (liked : bool) (likes_count : Z) : t :=
  mk (id post) (title post) (content post) (topic post) (creator post)
     (created_at post) likes_count (comments_count post) liked.
End Post.

Module Comment.
Record t : Type := mk {
  id : Z;
  content : string;
  creator : option string;               (* creator?.username *)
  created_at : string;
  likes_count : option Z;                (* read as [likes_count || 0] *)
}.
End Comment.

(** Payloads of the endpoints the client reads. *)
Record login_data : Type := LoginData { token : string }.
Record posts_page : Type := PostsPage { results : option (list Post.t) }.
Record like_data : Type := LikeData { liked : bool; likes_count : Z }.

(** The comment list comes either inside a page object or as a bare
    array; [NoComments] is a falsy body. *)
Inductive comments_data : Type :=
  | CommentsPage (results : list Comment.t)
  | CommentsArray (items : list Comment.t)
  | NoComments.

(** ** services/api.js *)

Definition API_BASE_URL : string := "http://127.0.0.1:8000/api".

(** [{ Authorization: `Token ${localStorage.getItem('authToken')}` }] *)
Definition authorization_headers : M (list (string * string)) :=
  token ← getItem "authToken";
  mret [("Authorization", "Token " +:+ nullable_to_string token)].

Module authAPI.

Definition login (r : reply login_data) (username password : string)
  : M (reply login_data) :=
  axios (Request POST (API_BASE_URL +:+ "/auth/login/") []
           (Some (JObj [("username", JStr username);
                        ("password", JStr password)])) []) r.

Definition register (r : reply unit) (username email password password2 : string)
  : M (reply unit) :=
  axios (Request POST (API_BASE_URL +:+ "/auth/register/") []
           (Some (JObj [("username", JStr username);
                        ("email", JStr email);
                        ("password", JStr password);
                        ("password2", JStr password2)])) []) r.

End authAPI.

Module postAPI.

Definition getAllPosts (r : reply posts_page) (page pageSize : Z)
    (ordering : string) : M (reply posts_page) :=
  headers ← authorization_headers;
  axios (Request GET (API_BASE_URL +:+ "/posts/")
           [("page", JNum page); ("page_size", JNum pageSize);
            ("ordering", JStr ordering)]
           None headers) r.

Definition getPost (r : reply Post.t) (id : json) : M (reply Post.t) :=
  axios (Request GET (API_BASE_URL +:+ "/posts/" +:+ to_string id +:+ "/")
           [] None []) r.

Definition createPost (r : reply json) (data : json) : M (reply json) :=
  headers ← authorization_headers;
  axios (Request POST (API_BASE_URL +:+ "/posts/") [] (Some data) headers) r.

Definition updatePost (r : reply json) (id : json) (data : json)
  : M (reply json) :=
  headers ← authorization_headers;
  axios (Request PUT (API_BASE_URL +:+ "/posts/" +:+ to_string id +:+ "/")
           [] (Some data) headers) r.

Definition deletePost (r : reply json) (id : json) : M (reply json) :=
  headers ← authorization_headers;
  axios (Request DELETE (API_BASE_URL +:+ "/posts/" +:+ to_string id +:+ "/")
           [] None headers) r.

End postAPI.

Module commentAPI.

(** The [headers] entry that follows [getComments] in the source sits
    outside the call, so this request carries no header. *)
Definition getComments (r : reply comments_data) (postId : json)
  : M (reply comments_data) :=
  axios (Request GET (API_BASE_URL +:+ "/comments/")
           [("post", postId)] None []) r.

Definition createComment (r : reply unit) (postId : json) (content : string)
  : M (reply unit) :=
  headers ← authorization_headers;
  axios (Request POST (API_BASE_URL +:+ "/comments/") []
           (Some (JObj [("post", postId); ("content", JStr content)]))
           headers) r.

End commentAPI.

(** The topic list comes inside a page object or as a bare array
    ([response.data.results || response.data]). *)
Inductive topics_data : Type :=
  | TopicsPage (results : list Post.topic_t)
  | TopicsArray (items : list Post.topic_t).

(** The reply to the creation of a topic, of which [data.id] is read. *)
Record topic_created : Type := TopicCreated { created_id : json }.

Module topicAPI.

Definition getAllTopics (r : reply topics_data) : M (reply topics_data) :=
  axios (Request GET (API_BASE_URL +:+ "/topics/") [] None []) r.

Definition getTopic (r : reply json) (id : json) : M (reply json) :=
  axios (Request GET (API_BASE_URL +:+ "/topics/" +:+ to_string id +:+ "/")
           [] None []) r.

Definition createTopic (r : reply topic_created) (data : json)
  : M (reply topic_created) :=
  headers ← authorization_headers;
  axios (Request POST (API_BASE_URL +:+ "/topics/") [] (Some data) headers) r.

End topicAPI.

Module reactionAPI.

Definition toggleLike (r : reply like_data) (postId : json)
  : M (reply like_data) :=
  token ← getItem "authToken";
  axios (Request POST
           (API_BASE_URL +:+ "/posts/" +:+ to_string postId +:+ "/like/")
           [] (Some (JObj []))
           [("Authorization", "Token " +:+ nullable_to_string token)]) r.

Definition likePost (r : reply json) (postId : json) : M (reply json) :=
  headers ← authorization_headers;
  axios (Request POST (API_BASE_URL +:+ "/reactions/") []
           (Some (JObj [("post", postId); ("reaction_type", JStr "like")]))
           headers) r.

Definition unlikePost (r : reply json) (postId : json) : M (reply json) :=
  headers ← authorization_headers;
  axios (Request DELETE (API_BASE_URL +:+ "/reactions/")
           [("post", postId); ("reaction_type", JStr "like")]
           None headers) r.

End reactionAPI.

(** ** services/auth.js *)

Module authService.

Record user : Type := User { user_username : string; user_token : option string }.

(** [{ success: true, user? }] or [{ success: false, error }]. *)
Inductive result : Type :=
  | Success (u : option user)
  | Failure (error : json).

Definition success (r : result) : bool :=
  match r with Success _ => true | Failure _ => false end.

Definition login (r : reply login_data) (username password : string)
  : M result :=
  response ← authAPI.login r username password;
  match response with
  | Resolved data =>
      let token := token data in
      setItem "authToken" token;;
      setItem "username" username;;
      set_guestMode false;;
      set_currentUsername (Some username);;
      mret (Success (Some (User username (Some token))))
  | Rejected error =>
      mret (Failure (or_else (err_data error) (JStr "Login failed")))
  end.

Definition register (r : reply unit) (username email password password2 : string)
  : M result :=
  response ← authAPI.register r username email password password2;
  match response with
  | Resolved _ => mret (Success None)
  | Rejected error =>
      mret (Failure (or_else (err_data error) (JStr "Registration failed")))
  end.

Definition loginAsGuest : M result :=
  set_guestMode true;;
  set_currentUsername (Some "Guest");;
  removeItem "authToken";;
  removeItem "username";;
  mret (Success (Some (User "Guest" None))).

Definition logout : M unit :=
  removeItem "authToken";;
  removeItem "username";;
  set_guestMode false;;
  set_currentUsername None.

Definition isAuthenticated : M bool :=
  token ← getItem "authToken";
  guest ← get_guestMode;
  mret (opt_truthy token || guest).

Definition isGuest : M bool :=
  guest ← get_guestMode;
  token ← getItem "authToken";
  mret (guest && negb (opt_truthy token)).

Definition getUsername : M string :=
  current ← get_currentUsername;
  stored ← getItem "username";
  mret (if opt_truthy current then default "" current
        else if opt_truthy stored then default "" stored
        else "Guest").

Definition getToken : M (option string) := getItem "authToken".

Definition initAuth : M unit :=
  token ← getItem "authToken";
  username ← getItem "username";
  if opt_truthy token && opt_truthy username then
    set_currentUsername username;;
    set_guestMode false
  else mret tt.

End authService.

(** ** utils/theme.js: the theme preference kept in the same storage *)

Module themeService.

Inductive theme : Type := lightTheme | darkTheme.

Definition name (t : theme) : string :=
  match t with lightTheme => "light" | darkTheme => "dark" end.

(** [prefersDark] is [window.matchMedia('(prefers-color-scheme: dark)').matches]. *)
Definition getCurrentTheme (prefersDark : bool) : M theme :=
  saved ← getItem "theme";
  if opt_truthy saved then
    mret (if bool_decide (saved = Some "dark") then darkTheme else lightTheme)
  else mret (if prefersDark then darkTheme else lightTheme).

Definition setTheme (themeName : string) : M unit :=
  setItem "theme" themeName.

Definition toggleTheme (prefersDark : bool) : M theme :=
  current ← getCurrentTheme prefersDark;
  let newTheme := if bool_decide (name current = "dark") then "light" else "dark" in
  setItem "theme" newTheme;;
  mret (if bool_decide (newTheme = "dark") then darkTheme else lightTheme).

#[global] Instance theme_eq_dec : EqDecision theme.
Proof. solve_decision. Defined.

Definition isDarkMode (prefersDark : bool) : M bool :=
  saved ← getItem "theme";
  if opt_truthy saved then mret (bool_decide (saved = Some "dark"))
  else mret prefersDark.

(** [theme.colors], in the order of the object literal. *)
Definition colors (t : theme) : list (string * string) :=
  match t with
  | lightTheme =>
      [("primary", "#0065c4ff"); ("secondary", "#000000ff");
       ("background", "#d9ebeeb0"); ("surface", "#ffffffff");
       ("text", "#000000ff"); ("textSecondary", "#292929ff");
       ("border", "#5E524014"); ("error", "#C0152F");
       ("success", "#218091"); ("warning", "#A84B2F")]
  | darkTheme =>
      [("primary", "#32B8C6"); ("secondary", "#A7A9A9");
       ("background", "#1F2121"); ("surface", "#262828");
       ("text", "#F5F5F5"); ("textSecondary", "#A7A9A9");
       ("border", "#7A7C7C4D"); ("error", "#FF5459");
       ("success", "#32B8C6"); ("warning", "#E6816101")]
  end.

End themeService.

(** Neighbours of a list are all related by [le]. *)
Fixpoint sorted_by {A : Type} (le : A -> A -> bool) (l : list A) : bool :=
  match l with
  | [] => true
  | x :: l' =>
      match l' with
      | [] => true
      | y :: _ => le x y && sorted_by le l'
      end
  end.

(** [applyTheme]: the style of the document root is a map from property
    names to values; every colour of the theme is written to the custom
    property [--color-<key>], in the order of the entries. *)
Definition applyTheme (t : themeService.theme) (style : gmap string string)
  : gmap string string :=
  foldl (fun st entry => <["--color-" +:+ entry.1 := entry.2]> st)
        style (themeService.colors t).

(** ** [Array.prototype.sort]

    The comparator returns a number; [None] stands for [NaN], which the
    sort reads as [+0].  The sort is stable (ECMAScript 2019 onwards): an
    element moves behind another one only when the comparator returns a
    positive number for the pair.  With a consistent comparator the result
    of a stable sort is unique, so insertion is as good a model as any. *)

Section ArraySort.
Context {A : Type} (compareFn : A -> A -> option Z).

(** [x] has to go behind [y]. *)
Definition after (x y : A) : bool :=
  match compareFn x y with
  | Some v => 0 <? v
  | None => false
  end.

Fixpoint sort_insert (x : A) (l : list A) : list A :=
  match l with
  | [] => [x]
  | y :: l' => if after x y then y :: sort_insert x l' else x :: l
  end.

Fixpoint Array_sort (l : list A) : list A :=
  match l with
  | [] => []
  | x :: l' => sort_insert x (Array_sort l')
  end.

(** The sort leaves [x] in front of [y]. *)
Definition in_order (x y : A) : bool := negb (after x y).
End ArraySort.

(** [a - b] on numbers that may be [NaN]. *)
Definition js_sub (a b : option Z) : option Z :=
  match a, b with
  | Some x, Some y => Some (x - y)
  | _, _ => None
  end.

(** ** pages/Home.js *)

Module Home.

Record state : Type := State {
  activeTab : string;                    (* 'popular' or 'following' *)
  posts : list Post.t;
  loading : bool;
  error : string;
}.

Definition initial : state := State "popular" [] false "".

Definition setPosts (ps : list Post.t) (st : state) : state :=
  State (activeTab st) ps (loading st) (error st).
Definition setLoading (b : bool) (st : state) : state :=
  State (activeTab st) (posts st) b (error st).
Definition setError (e : string) (st : state) : state :=
  State (activeTab st) (posts st) (loading st) e.
Definition setActiveTab (tab : string) (st : state) : state :=
  State tab (posts st) (loading st) (error st).

Definition fetchPosts (r : reply posts_page) (st : state) : M state :=
  let st := setError "" (setLoading true st) in
  data ← (if String.eqb (activeTab st) "popular"
          then postAPI.getAllPosts r 1 20 "-likes_count"
          else postAPI.getAllPosts r 1 20 "-created_at");
  match data with
  | Resolved data =>
      mret (setLoading false (setPosts (default [] (results data)) st))
  | Rejected err =>
      mret (setLoading false (setError "Failed to load posts" st))
  end.

(** [isGuest] is the constant of the render the handler belongs to. *)
Definition handleLike (isGuest : bool) (r : reply like_data) (postId : Z)
    (st : state) : M state :=
  if isGuest then
    alert "Please login to like posts";;
    mret st
  else
    response ← reactionAPI.toggleLike r (JNum postId);
    match response with
    | Resolved data =>
        mret (setPosts
                (map (fun post =>
                        if Post.id post =? postId
                        then Post.with_like post (liked data) (likes_count data)
                        else post)
                     (posts st))
                st)
    | Rejected err =>
        alert ("Failed to like post: " +:+
               to_string (or_else (get "error" (err_data err))
                                  (JStr (err_message err))));;
        mret st
    end.

(** The part of [handleLike] that runs when the reply [data] arrives,
    [setPosts(posts.map(...))]: [posts] is the constant of the render in
    which the button was clicked ([closure]), and [setPosts] replaces the
    list of the state the component is in by then ([current]).  The two
    states differ when something else has set the state while the request
    was under way. *)
Definition likeResolved (closure : state) (data : like_data) (postId : Z)
    (current : state) : state :=
  setPosts
    (map (fun post =>
            if Post.id post =? postId
            then Post.with_like post (liked data) (likes_count data)
            else post)
         (posts closure))
    current.

(** The effect [useEffect(fetchPosts, [activeTab])]: it runs after the
    first render and after every render in which [activeTab] differs from
    the previous one. *)
Definition mount (r : reply posts_page) : M state :=
  fetchPosts r initial.

Definition selectTab (r : reply posts_page) (tab : string) (st : state)
  : M state :=
  if String.eqb tab (activeTab st) then mret st
  else fetchPosts r (setActiveTab tab st).

End Home.

(** ** pages/PostDetail.js *)

Module PostDetail.

Record state : Type := State {
  post : option Post.t;
  loading : bool;
  error : string;
}.

Definition initial : state := State None true "".

Definition fetchPost (r : reply Post.t) (postId : string) (st : state)
  : M state :=
  response ← postAPI.getPost r (JStr postId);
  match response with
  | Resolved data => mret (State (Some data) false (error st))
  | Rejected err => mret (State (post st) false "Failed to load post")
  end.

(** What is on screen; the like button exists in [PostView] only. *)
Inductive view : Type :=
  | LoadingView
  | ErrorView (msg : string)
  | PostView (p : Post.t).

Definition render (st : state) : view :=
  if loading st then LoadingView
  else match post st with
       | Some p => if str_truthy (error st) then ErrorView (error st)
                   else PostView p
       | None => ErrorView (if str_truthy (error st) then error st
                            else "Post not found")
       end.

(** [post] is the post of the render that shows the button. *)
Definition handleLike (isGuest : bool) (r : reply like_data) (postId : string)
    (post : Post.t) (st : state) : M state :=
  if isGuest then
    alert "Please login to like posts";;
    mret st
  else
    response ← reactionAPI.toggleLike r (JStr postId);
    match response with
    | Resolved data =>
        mret (State (Some (Post.with_like post (liked data) (likes_count data)))
                    (loading st) (error st))
    | Rejected err =>
        alert "Failed to like post";;
        mret st
    end.

End PostDetail.

(** ** components/Comments.js *)

Module Comments.

Record state : Type := State {
  comments : list Comment.t;
  newComment : string;
  loading : bool;
  sortBy : string;                       (* 'likes', 'newest', 'oldest' *)
}.

Definition initial : state := State [] "" false "likes".

Definition setComments (cs : list Comment.t) (st : state) : state :=
  State cs (newComment st) (loading st) (sortBy st).
Definition setNewComment (s : string) (st : state) : state :=
  State (comments st) s (loading st) (sortBy st).
Definition setLoading (b : bool) (st : state) : state :=
  State (comments st) (newComment st) b (sortBy st).
Definition setSortBy (s : string) (st : state) : state :=
  State (comments st) (newComment st) (loading st) s.

(** [response.data.results || response.data || []] *)
Definition comment_list (data : comments_data) : list Comment.t :=
  match data with
  | CommentsPage results => results
  | CommentsArray items => items
  | NoComments => []
  end.

Definition fetchComments (r : reply comments_data) (postId : json)
    (st : state) : M state :=
  response ← commentAPI.getComments r postId;
  match response with
  | Resolved data => mret (setComments (comment_list data) st)
  | Rejected err => mret st
  end.

(** [fetchComments()] is started without [await]; its request goes out
    at once and its [setComments] lands after [setLoading(false)], on a
    different field of the state. *)
Definition handleSubmit (isGuest : bool) (created : reply unit)
    (fetched : reply comments_data) (postId : json) (st : state) : M state :=
  if negb (str_truthy (trim (newComment st))) then mret st
  else if isGuest then
    alert "Please login to comment";;
    mret st
  else
    let st := setLoading true st in
    response ← commentAPI.createComment created postId (newComment st);
    match response with
    | Resolved _ =>
        let st := setNewComment "" st in
        st ← fetchComments fetched postId st;
        mret (setLoading false st)
    | Rejected err =>
        alert "Failed to post comment";;
        mret (setLoading false st)
    end.

(** What the component renders under the sort buttons: the form for a
    user who is not a guest, [{!isGuest && <form onSubmit={handleSubmit}>}],
    whose submit button has [disabled={loading || !newComment.trim()}], and
    for a guest the notice [{isGuest && <div className="guest-notice">}].
    The form is the only place from which [handleSubmit] is called. *)
Definition formShown (isGuest : bool) : bool := negb isGuest.

Definition submitDisabled (st : state) : bool :=
  loading st || negb (str_truthy (trim (newComment st))).

Definition guestNotice (isGuest : bool) : option string :=
  if isGuest then Some "Log in to comment on posts" else None.

Section Sorting.
(** The time value of [new Date(s)], [None] for an invalid date. *)
Variable Date_parse : string -> option Z.

Definition by_likes (a b : Comment.t) : option Z :=
  Some (default 0 (Comment.likes_count b) - default 0 (Comment.likes_count a)).

Definition by_newest (a b : Comment.t) : option Z :=
  js_sub (Date_parse (Comment.created_at b)) (Date_parse (Comment.created_at a)).

Definition by_oldest (a b : Comment.t) : option Z :=
  js_sub (Date_parse (Comment.created_at a)) (Date_parse (Comment.created_at b)).

Definition getSortedComments (st : state) : list Comment.t :=
  let sorted := comments st in
  if String.eqb (sortBy st) "likes" then Array_sort by_likes sorted
  else if String.eqb (sortBy st) "newest" then Array_sort by_newest sorted
  else if String.eqb (sortBy st) "oldest" then Array_sort by_oldest sorted
  else sorted.
End Sorting.

(** The effect [useEffect(fetchComments, [postId])] runs after the first
    render and after a render with a new [postId]; a click on a sort
    button sets [sortBy] and renders again with the same [postId]. *)
Definition mount (r : reply comments_data) (postId : json) : M state :=
  fetchComments r postId initial.

Definition rerender (r : reply comments_data) (changed : bool)
    (postId : json) (st : state) : M state :=
  if changed then fetchComments r postId st else mret st.

Definition clickSort (r : reply comments_data) (mode : string)
    (postId : json) (st : state) : M state :=
  rerender r false postId (setSortBy mode st).

End Comments.

(** ** pages/Login.js *)

Module Login.

Record form : Type := Form {
  username : string;
  email : string;
  password : string;
  password2 : string;
}.

Record state : Type := State {
  isLogin : bool;
  formData : form;
  error : string;
  loading : bool;
}.

Definition setError (e : string) (st : state) : state :=
  State (isLogin st) (formData st) e (loading st).
Definition setLoading (b : bool) (st : state) : state :=
  State (isLogin st) (formData st) (error st) b.

(** [typeof e === 'string' ? e : fallback] *)
Definition string_or (e : json) (fallback : string) : string :=
  match e with JStr s => s | _ => fallback end.

(** The second component tells whether [onLoginSuccess()] was called. *)
Definition handleSubmit (registered : reply unit) (logged : reply login_data)
    (st : state) : M (state * bool) :=
  let st := setError "" (setLoading true st) in
  let f := formData st in
  if isLogin st then
    result ← authService.login logged (username f) (password f);
    match result with
    | authService.Success _ => mret (setLoading false st, true)
    | authService.Failure e =>
        mret (setLoading false (setError (string_or e "Login failed") st), false)
    end
  else if negb (String.eqb (password f) (password2 f)) then
    mret (setLoading false (setError "Passwords do not match" st), false)
  else
    result ← authService.register registered (username f) (email f)
                                  (password f) (password2 f);
    match result with
    | authService.Success _ =>
        loginResult ← authService.login logged (username f) (password f);
        match loginResult with
        | authService.Success _ => mret (setLoading false st, true)
        | authService.Failure _ =>
            mret (setLoading false
                    (setError "Registration successful, but login failed. Please try logging in." st),
                  false)
        end
    | authService.Failure e =>
        mret (setLoading false (setError (string_or e "Registration failed") st),
              false)
    end.

Definition handleGuestMode : M bool :=
  authService.loginAsGuest;;
  mret true.

(** The [name] attributes of the inputs of the form. *)
Inductive input_name : Type := Username | Email | Password | Password2.

(** [setFormData(prev => ({ ...prev, [name]: value })); setError('')] *)
Definition handleChange (name : input_name) (value : string) (st : state)
  : state :=
  let f := formData st in
  let f' := match name with
            | Username => Form value (email f) (password f) (password2 f)
            | Email => Form (username f) value (password f) (password2 f)
            | Password => Form (username f) (email f) value (password2 f)
            | Password2 => Form (username f) (email f) (password f) value
            end in
  State (isLogin st) f' "" (loading st).

(** The button that switches between login and registration. *)
Definition toggleMode (st : state) : state :=
  State (negb (isLogin st)) (Form "" "" "" "") "" (loading st).

End Login.

(** ** pages/CreatePost.js *)

Module CreatePost.

Record file : Type := File { file_name : string }.

Record form : Type := Form {
  title : string;
  content : string;
  topic : string;
  tags : string;
  attachments : list file;
}.

Record state : Type := State {
  formData : form;
  topics : list Post.topic_t;
  error : json;                          (* '' at first, then what [catch] finds *)
  loading : bool;
  charCount : nat;
  newTopicName : string;
}.

Definition MAX_CHARS : nat := 5000.

(** [topicId] is the optional route parameter. *)
Definition initial (topicId : option string) : state :=
  State (Form "" "" (if opt_truthy topicId then default "" topicId else "") "" [])
        [] (JStr "") false 0 "".

Definition setFormData (f : form) (st : state) : state :=
  State f (topics st) (error st) (loading st) (charCount st) (newTopicName st).
Definition setTopics (ts : list Post.topic_t) (st : state) : state :=
  State (formData st) ts (error st) (loading st) (charCount st) (newTopicName st).
Definition setError (e : json) (st : state) : state :=
  State (formData st) (topics st) e (loading st) (charCount st) (newTopicName st).
Definition setLoading (b : bool) (st : state) : state :=
  State (formData st) (topics st) (error st) b (charCount st) (newTopicName st).
Definition setCharCount (n : nat) (st : state) : state :=
  State (formData st) (topics st) (error st) (loading st) n (newTopicName st).
Definition setNewTopicName (s : string) (st : state) : state :=
  State (formData st) (topics st) (error st) (loading st) (charCount st) s.

Definition topic_list (data : topics_data) : list Post.topic_t :=
  match data with
  | TopicsPage results => results
  | TopicsArray items => items
  end.

(** The effect that runs after the first render.  The second component
    is the path handed to [navigate], if any. *)
Definition mount (r : reply topics_data) (st : state)
  : M (state * option string) :=
  token ← getItem "authToken";
  if negb (opt_truthy token) then mret (st, Some "/")
  else
    response ← topicAPI.getAllTopics r;
    match response with
    | Resolved data => mret (setTopics (topic_list data) st, None)
    | Rejected err => mret (setTopics [] st, None)
    end.

Definition handleContentChange (text : string) (st : state) : state :=
  if (utf16_length text <=? MAX_CHARS)%nat then
    let f := formData st in
    setCharCount (utf16_length text)
      (setFormData (Form (title f) text (topic f) (tags f) (attachments f)) st)
  else st.

(** The [name] attributes of the inputs of the form. *)
Inductive input_name : Type := Title | Content | Topic | Tags.

Definition handleInputChange (name : input_name) (value : string) (st : state)
  : state :=
  let f := formData st in
  setFormData
    match name with
    | Title => Form value (content f) (topic f) (tags f) (attachments f)
    | Content => Form (title f) value (topic f) (tags f) (attachments f)
    | Topic => Form (title f) (content f) value (tags f) (attachments f)
    | Tags => Form (title f) (content f) (topic f) value (attachments f)
    end st.

Definition handleFileAttach (files : list file) (st : state) : state :=
  let f := formData st in
  setFormData (Form (title f) (content f) (topic f) (tags f)
                    (attachments f ++ files)) st.

(** [l.filter((_, i) => keep(i))], the index counting from [i]. *)
Fixpoint filter_index {A : Type} (keep : nat -> bool) (i : nat) (l : list A)
  : list A :=
  match l with
  | [] => []
  | x :: l' =>
      if keep i then x :: filter_index keep (S i) l'
      else filter_index keep (S i) l'
  end.

Definition removeAttachment (index : nat) (st : state) : state :=
  let f := formData st in
  setFormData (Form (title f) (content f) (topic f) (tags f)
                    (filter_index (fun i => negb (i =? index)%nat) 0
                                  (attachments f))) st.

(** [tags.split(',').map(t => t.trim()).filter(t => t)] *)
Definition tag_list (tags : string) : list string :=
  List.filter str_truthy (map trim (split "," tags)).

Definition postData (f : form) (topicId : json) : json :=
  JObj ([("title", JStr (title f)); ("content", JStr (content f));
         ("topic_id", topicId)]
        ++ (if str_truthy (tags f)
            then [("tags", JArr (map JStr (tag_list (tags f))))]
            else [])).

(** What the [catch] block shows. *)
Definition failure (err : axios_error) : json :=
  or_else (get "detail" (err_data err))
          (or_else (get "error" (err_data err)) (JStr "Failed to create post")).

(** The second component is the path handed to [navigate], if any. *)
Definition handleSubmit (topicCreated : reply topic_created)
    (postCreated : reply json) (st : state) : M (state * option string) :=
  let st := setError (JStr "") st in
  let f := formData st in
  if negb (str_truthy (trim (title f))) then
    mret (setError (JStr "Title is required") st, None)
  else if negb (str_truthy (trim (content f))) then
    mret (setError (JStr "Content is required") st, None)
  else if negb (str_truthy (topic f)) && negb (str_truthy (newTopicName st)) then
    mret (setError (JStr "Please select a topic or create a new one") st, None)
  else
    let st := setLoading true st in
    let send (topicId : json) : M (state * option string) :=
      response ← postAPI.createPost postCreated (postData f topicId);
      match response with
      | Resolved _ => mret (setLoading false st, Some "/")
      | Rejected err => mret (setLoading false (setError (failure err) st), None)
      end in
    if String.eqb (topic f) "new" && str_truthy (trim (newTopicName st)) then
      topicResponse ← topicAPI.createTopic topicCreated
                        (JObj [("name", JStr (trim (newTopicName st)));
                               ("description", JStr "")]);
      match topicResponse with
      | Resolved data => send (created_id data)
      | Rejected err => mret (setLoading false (setError (failure err) st), None)
      end
    else send (JStr (topic f)).

(** The inputs of the form and the handlers they are wired to. *)
Inductive event : Type :=
  | TypeTitle (value : string)
  | TypeContent (text : string)
  | SelectTopic (value : string)
  | TypeTags (value : string)
  | TypeNewTopicName (value : string)
  | Attach (files : list file)
  | Remove (index : nat).

Definition handle (e : event) (st : state) : state :=
  match e with
  | TypeTitle v => handleInputChange Title v st
  | TypeContent text => handleContentChange text st
  | SelectTopic v => handleInputChange Topic v st
  | TypeTags v => handleInputChange Tags v st
  | TypeNewTopicName v => setNewTopicName v st
  | Attach files => handleFileAttach files st
  | Remove index => removeAttachment index st
  end.

End CreatePost.

(** ** App.js and components/Navbar.js *)

Module App.

Record state : Type := State {
  isAuthenticated : bool;
  isDarkMode : bool;
}.

(** [useState(authService.isAuthenticated())] and
    [useState(themeService.isDarkMode())]. *)
Definition initial (prefersDark : bool) : M state :=
  a ← authService.isAuthenticated;
  d ← themeService.isDarkMode prefersDark;
  mret (State a d).

Definition handleLogout (st : state) : M state :=
  authService.logout;;
  mret (State false (isDarkMode st)).

Definition handleLoginSuccess (st : state) : state :=
  State true (isDarkMode st).

(** The second component is the style of the document root. *)
Definition handleThemeToggle (prefersDark : bool) (st : state)
    (style : gmap string string) : M (state * gmap string string) :=
  newTheme ← themeService.toggleTheme prefersDark;
  mret (State (isAuthenticated st)
              (bool_decide (themeService.name newTheme = "dark")),
        applyTheme newTheme style).

End App.

Module Navbar.

(** [onLogout] is [App.handleLogout]; the string is the path handed to
    [navigate]. *)
Definition handleLogout (app : App.state) : M (App.state * string) :=
  authService.logout;;
  app ← App.handleLogout app;
  mret (app, "/login").

End Navbar.

(** ** Sessions *)

Inductive session_kind : Type := Anonymous | Guest | Authenticated.

(** The kind of session, read through the two predicates of [auth.js]. *)
Definition session_of (w : world) : session_kind :=
  if eval authService.isGuest w then Guest
  else if eval authService.isAuthenticated w then Authenticated
  else Anonymous.

(** One action of the application on the world. *)
Inductive action : Type :=
  | ALogin (r : reply login_data) (username password : string)
  | ARegister (r : reply unit) (username email password password2 : string)
  | ALoginAsGuest
  | ALogout
  | AInitAuth
  | ASetTheme (themeName : string)
  | AToggleTheme (prefersDark : bool)
  | AGetAllPosts (r : reply posts_page) (page pageSize : Z) (ordering : string)
  | AGetPost (r : reply Post.t) (id : json)
  | AToggleLike (r : reply like_data) (postId : json)
  | AGetComments (r : reply comments_data) (postId : json)
  | ACreateComment (r : reply unit) (postId : json) (content : string)
  | ARequest (req : request)             (* any other call of the gateway *)
  | AAlert (msg : string)
  | AReload.

Definition perform (a : action) (w : world) : world :=
  match a with
  | ALogin r u p => exec (authService.login r u p) w
  | ARegister r u e p p2 => exec (authService.register r u e p p2) w
  | ALoginAsGuest => exec authService.loginAsGuest w
  | ALogout => exec authService.logout w
  | AInitAuth => exec authService.initAuth w
  | ASetTheme n => exec (themeService.setTheme n) w
  | AToggleTheme d => exec (themeService.toggleTheme d) w
  | AGetAllPosts r p s o => exec (postAPI.getAllPosts r p s o) w
  | AGetPost r i => exec (postAPI.getPost r i) w
  | AToggleLike r i => exec (reactionAPI.toggleLike r i) w
  | AGetComments r i => exec (commentAPI.getComments r i) w
  | ACreateComment r i c => exec (commentAPI.createComment r i c) w
  | ARequest req => exec (axios req (Resolved tt)) w
  | AAlert m => exec (alert m) w
  | AReload => page_load (localStorage w)
  end.

(** The worlds the application can be in: it starts from a page load over
    whatever the storage holds and performs actions. *)
Inductive reachable : world -> Prop :=
  | reachable_load storage : reachable (page_load storage)
  | reachable_step a w : reachable w -> reachable (perform a w).

(** The in-memory user name goes with the guest flag and the storage:
    a guest is called "Guest" and has no stored name; otherwise a
    remembered name is the stored one and comes with a stored token. *)
Definition username_consistent (w : world) : Prop :=
  match currentUsername w with
  | None => guestMode w = false
  | Some u =>
      if guestMode w
      then u = "Guest" /\ localStorage w !! "username" = None
      else localStorage w !! "username" = Some u
           /\ is_Some (localStorage w !! "authToken")
  end.

(** ** Requests as the backend sees them *)

(** Running [m] in [w] sends one request, with the given method and URL,
    hands back the reply [r] and changes nothing else. *)
Definition sends {A : Type} (m : M (reply A)) (r : reply A) (w : world)
    (method : http_method) (url : string) : Prop :=
  exists req,
    m w = (r, World (guestMode w) (currentUsername w) (localStorage w)
                    (network w ++ [req]) (alerts w))
    /\ req_method req = method
    /\ req_url req = url.

(** The headers of the request sent last. *)
Definition last_headers (w : world) : option (list (string * string)) :=
  req_headers <$> last (network w).

(** The world after some more requests have been sent. *)
Definition with_requests (reqs : list request) (w : world) : world :=
  World (guestMode w) (currentUsername w) (localStorage w)
        (network w ++ reqs) (alerts w).

(** The two requests of the post form. *)
Definition create_topic_request (name : string) (token : option string)
  : request :=
  Request POST "http://127.0.0.1:8000/api/topics/" []
          (Some (JObj [("name", JStr name); ("description", JStr "")]))
          [("Authorization", "Token " +:+ nullable_to_string token)].

Definition create_post_request (f : CreatePost.form) (topicId : json)
    (token : option string) : request :=
  Request POST "http://127.0.0.1:8000/api/posts/" []
          (Some (CreatePost.postData f topicId))
          [("Authorization", "Token " +:+ nullable_to_string token)].

(** The custom properties that a theme writes. *)
Definition properties_of (t : themeService.theme) : list string :=
  map (fun entry => "--color-" +:+ entry.1) (themeService.colors t).

(** The [ordering] query parameter that goes with a tab of the feed. *)
Definition ordering_of (tab : string) : string :=
  if String.eqb tab "popular" then "-likes_count" else "-created_at".

(** The post-list request of the feed for a tab, given the stored token. *)
Definition posts_request (tab : string) (token : option string) : request :=
  Request GET "http://127.0.0.1:8000/api/posts/"
          [("page", JNum 1); ("page_size", JNum 20);
           ("ordering", JStr (ordering_of tab))]
          None
          [("Authorization", "Token " +:+ nullable_to_string token)].

(** The like-toggle request for a post. *)
Definition like_request (postId : json) (token : option string) : request :=
  Request POST ("http://127.0.0.1:8000/api/posts/" +:+ to_string postId +:+ "/like/")
          [] (Some (JObj []))
          [("Authorization", "Token " +:+ nullable_to_string token)].

(** The requests of the comment view. *)
Definition comments_request (postId : json) : request :=
  Request GET "http://127.0.0.1:8000/api/comments/" [("post", postId)] None [].

Definition create_comment_request (postId : json) (content : string)
    (token : option string) : request :=
  Request POST "http://127.0.0.1:8000/api/comments/" []
          (Some (JObj [("post", postId); ("content", JStr content)]))
          [("Authorization", "Token " +:+ nullable_to_string token)].

(** The requests of the login page. *)
Definition login_request (username password : string) : request :=
  Request POST "http://127.0.0.1:8000/api/auth/login/" []
          (Some (JObj [("username", JStr username); ("password", JStr password)]))
          [].

Definition register_request (f : Login.form) : request :=
  Request POST "http://127.0.0.1:8000/api/auth/register/" []
          (Some (JObj [("username", JStr (Login.username f));
                       ("email", JStr (Login.email f));
                       ("password", JStr (Login.password f));
                       ("password2", JStr (Login.password2 f))]))
          [].

(** ** Orders on comments *)

Definition more_liked_or_same (a b : Comment.t) : bool :=
  default 0 (Comment.likes_count b) <=? default 0 (Comment.likes_count a).

(** Both dates are valid and [a] is not older than [b]. *)
Definition newer_or_same (Date_parse : string -> option Z) (a b : Comment.t)
  : bool :=
  match Date_parse (Comment.created_at a), Date_parse (Comment.created_at b) with
  | Some ta, Some tb => tb <=? ta
  | _, _ => false
  end.

Definition older_or_same (Date_parse : string -> option Z) (a b : Comment.t)
  : bool :=
  newer_or_same Date_parse b a.

Definition valid_date (Date_parse : string -> option Z) (c : Comment.t) : bool :=
  bool_decide (is_Some (Date_parse (Comment.created_at c))).

(** Both dates are valid and [a] is newer than [b]. *)
Definition strictly_newer (Date_parse : string -> option Z) (a b : Comment.t)
  : Prop :=
  exists ta tb,
    Date_parse (Comment.created_at a) = Some ta
    /\ Date_parse (Comment.created_at b) = Some tb
    /\ tb < ta.

(** ** Sample data *)

Module Sample.

Definition budget : Post.t :=
  Post.mk 1 "Budget vote" "The council votes on Tuesday."
          (Post.Topic 3 "Economy") (Post.Creator 10 "alice" (Some 2))
          "2024-03-01T12:00:00Z" 5 2 false.

Definition transit : Post.t :=
  Post.mk 2 "Transit plan" "New tram lines are proposed."
          (Post.Topic 4 "Cities") (Post.Creator 11 "bob" None)
          "2024-03-02T08:30:00Z" 3 0 true.

Definition feed : Home.state := Home.State "popular" [budget; transit] false "".

(** Time values of the three dates used below; every other string is an
    invalid date. *)
Definition Date_parse (s : string) : option Z :=
  if String.eqb s "2024-03-03T09:00:00Z" then Some 1709456400000
  else if String.eqb s "2024-03-02T08:30:00Z" then Some 1709368200000
  else if String.eqb s "2024-03-01T12:00:00Z" then Some 1709294400000
  else None.

Definition first : Comment.t :=
  Comment.mk 1 "Agreed." (Some "alice") "2024-03-01T12:00:00Z" (Some 4).
Definition second : Comment.t :=
  Comment.mk 2 "Not so sure." (Some "bob") "2024-03-02T08:30:00Z" None.
Definition third : Comment.t :=
  Comment.mk 3 "Sources?" None "2024-03-03T09:00:00Z" (Some 1).

Definition thread : Comments.state :=
  Comments.State [third; second; first] "" false "likes".

Definition guest : world := exec authService.loginAsGuest (page_load ∅).

Definition signup : Login.state :=
  Login.State false (Login.Form "carol" "carol@example.org" "hunter2" "hunter2")
              "" false.

End Sample.

(** * Properties *)

Ltac run :=
  unfold exec, eval,
    authService.login, authService.register, authService.loginAsGuest,
    authService.logout, authService.initAuth, authService.isGuest,
    authService.isAuthenticated, authService.getUsername,
    authAPI.login, authAPI.register,
    postAPI.getAllPosts, postAPI.getPost, reactionAPI.toggleLike,
    commentAPI.getComments, commentAPI.createComment,
    themeService.setTheme, themeService.toggleTheme,
    themeService.getCurrentTheme, authorization_headers,
    mbind, M_bind, mret, M_ret, axios, alert, getItem, setItem, removeItem,
    get_guestMode, set_guestMode, get_currentUsername, set_currentUsername;
  cbn.

(** The guest flag is only ever raised together with the removal of the
    token, and storing a token lowers it. *)
Lemma perform_guest_no_token (a : action) (w : world) :
  (guestMode w = true -> localStorage w !! "authToken" = None) ->
  guestMode (perform a w) = true ->
  localStorage (perform a w) !! "authToken" = None.
Proof.
  destruct a; try destruct r; unfold perform; run; intros Hinv; try done.
  - intros _. rewrite lookup_delete_ne; [|done]. apply lookup_delete_eq.
  - destruct (_ && _); cbn; try done.
  - intros Hg. rewrite lookup_insert_ne; [|done]. auto.
  - destruct (opt_truthy _); cbn; intros Hg;
      (rewrite lookup_insert_ne; [|done]); auto.
Qed.

Lemma reachable_guest_no_token (w : world) :
  reachable w -> guestMode w = true -> localStorage w !! "authToken" = None.
Proof.
  induction 1 as [storage | a w Hw IH].
  - done.
  - by apply perform_guest_no_token.
Qed.

(** The event handlers of the views are made of these actions, so they
    stay inside the reachable worlds. *)
Lemma handlers_stay_reachable (w : world) :
  reachable w ->
  (forall registered logged st,
     reachable (exec (Login.handleSubmit registered logged st) w))
  /\ reachable (exec Login.handleGuestMode w)
  /\ (forall r st, reachable (exec (Home.fetchPosts r st) w))
  /\ (forall isGuest r postId st,
        reachable (exec (Home.handleLike isGuest r postId st) w))
  /\ (forall isGuest r postId post st,
        reachable (exec (PostDetail.handleLike isGuest r postId post st) w))
  /\ (forall isGuest created fetched postId st,
        reachable (exec (Comments.handleSubmit isGuest created fetched postId st) w)).
Proof.
  intros Hw. repeat split.
  - intros registered logged [[] f e l].
    + destruct logged as [d | err].
      * exact (reachable_step (ALogin (Resolved d) _ _) w Hw).
      * exact (reachable_step (ALogin (Rejected err) _ _) w Hw).
    + unfold Login.handleSubmit. cbn.
      destruct (String.eqb (Login.password f) (Login.password2 f)); cbn; [|done].
      destruct registered as [u | err].
      * destruct logged as [d | err].
        -- exact (reachable_step (ALogin (Resolved d) _ _) _
                    (reachable_step (ARegister (Resolved u) _ _ _ _) w Hw)).
        -- exact (reachable_step (ALogin (Rejected err) _ _) _
                    (reachable_step (ARegister (Resolved u) _ _ _ _) w Hw)).
      * exact (reachable_step (ARegister (Rejected err) _ _ _ _) w Hw).
  - exact (reachable_step ALoginAsGuest w Hw).
  - intros r st. unfold Home.fetchPosts. cbn.
    destruct (String.eqb (Home.activeTab st) "popular"), r;
      exact (reachable_step (AGetAllPosts (Rejected (AxiosError None "")) 1 20 _) w Hw).
  - intros [] r postId st.
    + exact (reachable_step (AAlert _) w Hw).
    + destruct r as [d | err].
      * exact (reachable_step (AToggleLike (Resolved d) _) w Hw).
      * exact (reachable_step (AAlert _) _
                 (reachable_step (AToggleLike (Rejected err) (JNum postId)) w Hw)).
  - intros [] r postId post st.
    + exact (reachable_step (AAlert _) w Hw).
    + destruct r as [d | err].
      * exact (reachable_step (AToggleLike (Resolved d) _) w Hw).
      * exact (reachable_step (AAlert _) _
                 (reachable_step (AToggleLike (Rejected err) (JStr postId)) w Hw)).
  - intros isGuest created fetched postId st.
    unfold Comments.handleSubmit.
    destruct (str_truthy (trim (Comments.newComment st))); cbn; [|done].
    destruct isGuest.
    + exact (reachable_step (AAlert _) w Hw).
    + destruct created as [u | err].
      * destruct fetched;
          exact (reachable_step (AGetComments (Rejected (AxiosError None "")) postId) _
                   (reachable_step (ACreateComment (Resolved u) postId _) w Hw)).
      * exact (reachable_step (AAlert _) _
                 (reachable_step (ACreateComment (Rejected err) postId _) w Hw)).
Qed.

(** ** The session store *)

Lemma isGuest_spec (w : world) :
  eval authService.isGuest w
  = guestMode w && negb (opt_truthy (localStorage w !! "authToken")).
Proof. reflexivity. Qed.

Lemma isAuthenticated_spec (w : world) :
  eval authService.isAuthenticated w
  = opt_truthy (localStorage w !! "authToken") || guestMode w.
Proof. reflexivity. Qed.

Lemma str_truthy_ne (s : string) : s ≠ "" -> str_truthy s = true.
Proof.
  intros Hs. unfold str_truthy. destruct (String.eqb_spec s ""); done.
Qed.

(** C2. A login whose request is rejected returns [success: false] and
    leaves the guest flag, the in-memory user name and the storage as they
    were; a login whose request resolves with a token stores the token and
    the user name, lowers the guest flag, remembers the user name and
    returns [success: true] with that user.  The session then counts as
    authenticated and shows the given name (the empty string being falsy
    in JavaScript, for a non-empty token and name). *)
Theorem login_outcomes (w : world) (username password : string) :
  (forall err : axios_error,
     let m := authService.login (Rejected err) username password in
     session (exec m w) = session w
     /\ alerts (exec m w) = alerts w
     /\ network (exec m w) = network w ++ [login_request username password]
     /\ authService.success (eval m w) = false
     /\ eval m w
        = authService.Failure (or_else (err_data err) (JStr "Login failed")))
  /\ (forall tok : string,
        let m := authService.login (Resolved (LoginData tok)) username password in
        eval m w
        = authService.Success
            (Some (authService.User username (Some tok)))
        /\ guestMode (exec m w) = false
        /\ currentUsername (exec m w) = Some username
        /\ localStorage (exec m w)
           = <["username" := username]> (<["authToken" := tok]> (localStorage w))
        /\ eval authService.getToken (exec m w) = Some tok
        /\ localStorage (exec m w) !! "username" = Some username
        /\ eval authService.isGuest (exec m w) = false
        /\ (tok ≠ "" ->
            eval authService.isAuthenticated (exec m w) = true
            /\ session_of (exec m w) = Authenticated)
        /\ (username ≠ "" ->
            eval authService.getUsername (exec m w) = username)).
Proof.
  split.
  - intros err m. subst m. run. done.
  - intros tok m. subst m. run.
    repeat split; try done.
    + rewrite lookup_insert_ne; [|done]. apply lookup_insert_eq.
    + apply lookup_insert_eq.
    + unfold session_of. run.
      rewrite lookup_insert_ne; [|done]. rewrite lookup_insert_eq. cbn.
      by rewrite (str_truthy_ne tok).
    + unfold session_of. run.
      rewrite lookup_insert_ne; [|done]. rewrite lookup_insert_eq. cbn.
      by rewrite (str_truthy_ne tok).
    + intros Hu. by rewrite (str_truthy_ne username).
Qed.

Lemma login_outcomes_witness :
  session_of
    (exec (authService.login (Resolved (LoginData "9944b09199c6"))
                             "alice" "secret")
          (page_load ∅)) = Authenticated
  /\ eval authService.getUsername
       (exec (authService.login (Resolved (LoginData "9944b09199c6"))
                                "alice" "secret")
             (page_load ∅)) = "alice".
Proof.
  destruct (login_outcomes (page_load ∅) "alice" "secret") as [_ Hok].
  destruct (Hok "9944b09199c6") as (_ & _ & _ & _ & _ & _ & _ & Hauth & Hname).
  split.
  - apply Hauth. discriminate.
  - apply Hname. discriminate.
Defined.

(** C6. Entering guest mode succeeds from every state: it returns
    [success: true], the session is a guest session, the token and the
    user name are gone from the storage and the other keys are untouched.
    The guest flag lives in a module variable only, so after a reload of
    the page over that storage, [initAuth] finds no token and the session
    is anonymous, not guest. *)
Theorem guest_entry_clears_and_is_not_persisted (w : world) :
  let w' := exec authService.loginAsGuest w in
  let w'' := exec authService.initAuth (page_load (localStorage w')) in
  eval authService.loginAsGuest w
  = authService.Success (Some (authService.User "Guest" None))
  /\ guestMode w' = true
  /\ eval authService.isGuest w' = true
  /\ session_of w' = Guest
  /\ localStorage w' !! "authToken" = None
  /\ localStorage w' !! "username" = None
  /\ (forall k, k ≠ "authToken" -> k ≠ "username" ->
        localStorage w' !! k = localStorage w !! k)
  /\ localStorage w'' = localStorage w'
  /\ guestMode w'' = false
  /\ eval authService.isGuest w'' = false
  /\ eval authService.isAuthenticated w'' = false
  /\ session_of w'' = Anonymous.
Proof.
  intros w' w''.
  assert (Htok : localStorage w' !! "authToken" = None).
  { subst w'. run. rewrite lookup_delete_ne; [|done]. apply lookup_delete_eq. }
  assert (Hname : localStorage w' !! "username" = None).
  { subst w'. run. apply lookup_delete_eq. }
  assert (Hguest : eval authService.isGuest w' = true).
  { rewrite isGuest_spec, Htok. reflexivity. }
  assert (Hw'' : w'' = page_load (localStorage w')).
  { subst w''. run. by rewrite Htok. }
  repeat split; try done.
  - unfold session_of. by rewrite Hguest.
  - intros k Hk1 Hk2. subst w'. run. by rewrite !lookup_delete_ne.
  - by rewrite Hw''.
  - by rewrite Hw''.
  - rewrite Hw'', isGuest_spec. reflexivity.
  - rewrite Hw'', isAuthenticated_spec. cbn. by rewrite Htok.
  - unfold session_of.
    rewrite Hw'', isGuest_spec, isAuthenticated_spec. cbn. by rewrite Htok.
Qed.

(** C9. In every reachable world, [isGuest()] holds exactly when the guest
    flag is set and the storage holds no token; hence a session with a
    stored token is never a guest session, and no world is at once a guest
    session and an authenticated session without a stored credential. *)
Theorem isGuest_excludes_stored_credential (w : world) :
  reachable w ->
  (eval authService.isGuest w = true
   <-> guestMode w = true /\ localStorage w !! "authToken" = None)
  /\ (forall tok, localStorage w !! "authToken" = Some tok ->
        eval authService.isGuest w = false)
  /\ (session_of w = Authenticated ->
        eval authService.isGuest w = false
        /\ is_Some (localStorage w !! "authToken"))
  /\ ~ (eval authService.isGuest w = true
        /\ eval authService.isAuthenticated w = true
        /\ session_of w = Authenticated
        /\ localStorage w !! "authToken" = None).
Proof.
  intros Hw. pose proof (reachable_guest_no_token w Hw) as Hinv.
  rewrite isGuest_spec.
  assert (Hauth : session_of w = Authenticated ->
                  guestMode w && negb (opt_truthy (localStorage w !! "authToken")) = false
                  /\ is_Some (localStorage w !! "authToken")).
  { unfold session_of. rewrite isGuest_spec, isAuthenticated_spec.
    destruct (guestMode w) eqn:Hg; cbn.
    - rewrite Hinv by done. cbn. discriminate.
    - destruct (localStorage w !! "authToken"); cbn; [eauto | discriminate]. }
  split; [|split; [|split]].
  - split.
    + intros [Hg _]%andb_true_iff. auto.
    + intros [-> ->]. reflexivity.
  - intros tok Htok. destruct (guestMode w) eqn:Hg; [|done].
    rewrite Hinv in Htok; done.
  - exact Hauth.
  - intros (Hg & _ & Hk & _). apply Hauth in Hk as [Hk _]. congruence.
Qed.

Lemma isGuest_excludes_stored_credential_witness :
  let w := perform ALoginAsGuest
             (perform (ALogin (Resolved (LoginData "9944b09199c6")) "alice" "secret")
                (page_load ∅)) in
  eval authService.isGuest w = true
  <-> guestMode w = true /\ localStorage w !! "authToken" = None.
Proof.
  intros w.
  apply (isGuest_excludes_stored_credential w).
  subst w. do 2 apply reachable_step. apply reachable_load.
Defined.

(** ** The API gateway *)

(** C10. The post-list request and the like-toggle request each go out as
    one request carrying exactly one header, [Authorization].  Its value is
    built from the persisted token: "Token " followed by the string stored
    under [authToken], whatever that string is, and "Token null" when
    nothing is stored; the header is never left out.  Nothing is stored in
    every reachable guest session and after a page load over a storage
    without token, so these send "Token null". *)
Theorem authorization_header_always_sent (w : world) :
  let value :=
    match localStorage w !! "authToken" with
    | Some stored => "Token " +:+ stored
    | None => "Token null"
    end in
  (forall r page pageSize ordering,
     exists req,
       network (exec (postAPI.getAllPosts r page pageSize ordering) w)
       = network w ++ [req]
       /\ req_headers req = [("Authorization", value)])
  /\ (forall r postId,
        exists req,
          network (exec (reactionAPI.toggleLike r postId) w) = network w ++ [req]
          /\ req_headers req = [("Authorization", value)])
  /\ (forall stored, localStorage w !! "authToken" = Some stored ->
        value = "Token " +:+ stored)
  /\ (localStorage w !! "authToken" = None -> value = "Token null")
  /\ (reachable w -> eval authService.isGuest w = true -> value = "Token null").
Proof.
  intros value. split; [|split; [|split; [|split]]].
  - intros r page pageSize ordering. run. eexists. split; [reflexivity|].
    subst value. cbn. by destruct (localStorage w !! "authToken").
  - intros r postId. run. eexists. split; [reflexivity|].
    subst value. cbn. by destruct (localStorage w !! "authToken").
  - intros stored Hsome. subst value. by rewrite Hsome.
  - intros Hnone. subst value. by rewrite Hnone.
  - intros Hw Hg. subst value.
    rewrite isGuest_spec in Hg. apply andb_true_iff in Hg as [Hg _].
    by rewrite (reachable_guest_no_token w Hw Hg).
Qed.

Lemma authorization_header_always_sent_witness :
  network (exec (reactionAPI.toggleLike (Rejected (AxiosError None "Request failed")) (JNum 7))
                (perform ALoginAsGuest (page_load ∅)))
  = [Request POST "http://127.0.0.1:8000/api/posts/7/like/" [] (Some (JObj []))
             [("Authorization", "Token null")]]
  /\ network (exec (reactionAPI.toggleLike (Resolved (LikeData true 6)) (JNum 7))
                   (perform (ALogin (Resolved (LoginData "9944b09199c6")) "alice" "secret")
                            (page_load ∅)))
     = [login_request "alice" "secret";
        Request POST "http://127.0.0.1:8000/api/posts/7/like/" [] (Some (JObj []))
                [("Authorization", "Token 9944b09199c6")]].
Proof.
  split.
  - pose (w := perform ALoginAsGuest (page_load ∅)).
    destruct (authorization_header_always_sent w) as (_ & Hlike & _ & _ & Hguest).
    destruct (Hlike (Rejected (AxiosError None "Request failed")) (JNum 7))
      as (req & Hnet & Hhdr).
    rewrite Hguest in Hhdr.
    + fold w. rewrite Hnet. destruct req as [m u p d h]. cbn in Hhdr. subst h.
      vm_compute in Hnet. injection Hnet as <- <- <- <-. reflexivity.
    + apply reachable_step, reachable_load.
    + reflexivity.
  - pose (w := perform (ALogin (Resolved (LoginData "9944b09199c6")) "alice" "secret")
                       (page_load ∅)).
    destruct (authorization_header_always_sent w) as (_ & Hlike & Hstored & _).
    destruct (Hlike (Resolved (LikeData true 6)) (JNum 7)) as (req & Hnet & Hhdr).
    rewrite (Hstored "9944b09199c6") in Hhdr by reflexivity.
    fold w. rewrite Hnet. destruct req as [m u p d h]. cbn in Hhdr. subst h.
    vm_compute in Hnet. injection Hnet as <- <- <- <-. reflexivity.
Defined.

(** ** The feed *)

Lemma fetchPosts_network (r : reply posts_page) (st : Home.state) (w : world) :
  network (exec (Home.fetchPosts r st) w)
  = network w ++ [posts_request (Home.activeTab st) (localStorage w !! "authToken")].
Proof.
  unfold Home.fetchPosts, posts_request, ordering_of. cbn.
  destruct (String.eqb (Home.activeTab st) "popular"), r; reflexivity.
Qed.

Lemma fetchPosts_storage (r : reply posts_page) (st : Home.state) (w : world) :
  localStorage (exec (Home.fetchPosts r st) w) = localStorage w.
Proof.
  unfold Home.fetchPosts. cbn.
  destruct (String.eqb (Home.activeTab st) "popular"), r; reflexivity.
Qed.

Lemma fetchPosts_tab (r : reply posts_page) (st : Home.state) (w : world) :
  Home.activeTab (eval (Home.fetchPosts r st) w) = Home.activeTab st.
Proof.
  unfold Home.fetchPosts. cbn.
  destruct (String.eqb (Home.activeTab st) "popular"), r; reflexivity.
Qed.

Lemma selectTab_switch (r : reply posts_page) (tab : string)
    (st : Home.state) (w : world) :
  String.eqb tab (Home.activeTab st) = false ->
  Home.selectTab r tab st w = Home.fetchPosts r (Home.setActiveTab tab st) w.
Proof. intros H. unfold Home.selectTab. by rewrite H. Qed.

(** C7. A feed load issues exactly one request: a GET of the post list
    with [page = 1], [page_size = 20] and an [ordering] parameter, which is
    '-likes_count' on the popular tab and '-created_at' on the following
    tab.  When the request resolves, the posts of the reply replace the
    list in memory, whatever it held, and a reply without [results] gives
    the empty list.  Going from popular to following and back issues three
    requests, each with its ordering. *)
Theorem feed_load_requests_page_one_with_ordering
    (w : world) (st : Home.state) :
  (forall r,
     network (exec (Home.fetchPosts r st) w)
     = network w ++ [posts_request (Home.activeTab st)
                                   (localStorage w !! "authToken")])
  /\ ordering_of "popular" = "-likes_count"
  /\ ordering_of "following" = "-created_at"
  /\ (forall data,
        Home.posts (eval (Home.fetchPosts (Resolved data) st) w)
        = default [] (results data))
  /\ (forall ps,
        Home.posts (eval (Home.fetchPosts (Resolved (PostsPage (Some ps))) st) w)
        = ps)
  /\ Home.posts (eval (Home.fetchPosts (Resolved (PostsPage None)) st) w) = []
  /\ (forall r1 r2 r3,
        let '(st1, w1) := Home.mount r1 w in
        let '(st2, w2) := Home.selectTab r2 "following" st1 w1 in
        let '(st3, w3) := Home.selectTab r3 "popular" st2 w2 in
        network w3
        = network w
          ++ [posts_request "popular" (localStorage w !! "authToken");
              posts_request "following" (localStorage w !! "authToken");
              posts_request "popular" (localStorage w !! "authToken")]).
Proof.
  split; [|split; [|split; [|split; [|split; [|split]]]]]; try reflexivity.
  - intros r. apply fetchPosts_network.
  - intros data. unfold Home.fetchPosts. cbn.
    destruct (String.eqb (Home.activeTab st) "popular"); reflexivity.
  - intros ps. unfold Home.fetchPosts. cbn.
    destruct (String.eqb (Home.activeTab st) "popular"); reflexivity.
  - unfold Home.fetchPosts. cbn.
    destruct (String.eqb (Home.activeTab st) "popular"); reflexivity.
  - intros r1 r2 r3.
    destruct (Home.mount r1 w) as [st1 w1] eqn:E1.
    destruct (Home.selectTab r2 "following" st1 w1) as [st2 w2] eqn:E2.
    destruct (Home.selectTab r3 "popular" st2 w2) as [st3 w3] eqn:E3.
    unfold Home.mount in E1.
    assert (T1 : Home.activeTab st1 = "popular").
    { replace st1 with (eval (Home.fetchPosts r1 Home.initial) w)
        by (unfold eval; by rewrite E1).
      apply fetchPosts_tab. }
    assert (N1 : network w1 = network w ++ [posts_request "popular" (localStorage w !! "authToken")]).
    { replace w1 with (exec (Home.fetchPosts r1 Home.initial) w)
        by (unfold exec; by rewrite E1).
      apply fetchPosts_network. }
    assert (S1 : localStorage w1 = localStorage w).
    { replace w1 with (exec (Home.fetchPosts r1 Home.initial) w)
        by (unfold exec; by rewrite E1).
      apply fetchPosts_storage. }
    rewrite selectTab_switch in E2 by (by rewrite T1).
    assert (T2 : Home.activeTab st2 = "following").
    { replace st2 with (eval (Home.fetchPosts r2 (Home.setActiveTab "following" st1)) w1)
        by (unfold eval; by rewrite E2).
      apply fetchPosts_tab. }
    assert (N2 : network w2 = network w1 ++ [posts_request "following" (localStorage w1 !! "authToken")]).
    { replace w2 with (exec (Home.fetchPosts r2 (Home.setActiveTab "following" st1)) w1)
        by (unfold exec; by rewrite E2).
      apply fetchPosts_network. }
    assert (S2 : localStorage w2 = localStorage w1).
    { replace w2 with (exec (Home.fetchPosts r2 (Home.setActiveTab "following" st1)) w1)
        by (unfold exec; by rewrite E2).
      apply fetchPosts_storage. }
    rewrite selectTab_switch in E3 by (by rewrite T2).
    replace w3 with (exec (Home.fetchPosts r3 (Home.setActiveTab "popular" st2)) w2)
      by (unfold exec; by rewrite E3).
    rewrite fetchPosts_network, N2, N1, S2, S1. cbn.
    by rewrite <- !app_assoc.
Qed.

(** Patching every entry that carries a given id touches one position
    only when ids do not repeat. *)
Lemma map_patch_insert (f : Post.t -> Post.t) (postId : Z)
    (ps : list Post.t) (i : nat) (p : Post.t) :
  NoDup (Post.id <$> ps) ->
  ps !! i = Some p ->
  Post.id p = postId ->
  map (fun post => if Post.id post =? postId then f post else post) ps
  = <[i := f p]> ps.
Proof.
  intros Hnd Hi Hid. apply list_eq. intros j.
  change (map ?g ps) with (g <$> ps). rewrite list_lookup_fmap.
  destruct (decide (i = j)) as [<- | Hne].
  - rewrite list_lookup_insert_eq by (by eapply lookup_lt_Some).
    rewrite Hi. cbn. by rewrite Hid, Z.eqb_refl.
  - rewrite list_lookup_insert_ne by done.
    destruct (ps !! j) as [q|] eqn:Hj; [|done]. cbn.
    destruct (Z.eqb_spec (Post.id q) postId) as [Heq | _]; [|done].
    exfalso. apply Hne.
    eapply (NoDup_lookup _ i j postId Hnd);
      rewrite list_lookup_fmap; [by rewrite Hi; cbn; f_equal | by rewrite Hj; cbn; f_equal].
Qed.

(** C1. A like toggle that the server answers with [{liked, likes_count}]
    issues that one request and maps the post list position by position:
    an entry with another id is kept as it is, an entry with the toggled
    id gets [is_liked] and [likes_count] from the answer (whatever the old
    count was) and keeps its seven other fields.  With distinct ids the new
    list is the old one with the single entry of P replaced.  The rest of
    the view state is untouched.  The post page patches its one post in the
    same way. *)
Theorem like_toggle_patches_only_the_liked_post
    (w : world) (st : Home.state) (i : nat) (P : Post.t)
    (liked : bool) (likes_count : Z) :
  Home.posts st !! i = Some P ->
  let m := Home.handleLike false (Resolved (LikeData liked likes_count))
                           (Post.id P) st in
  let posts' := Home.posts (eval m w) in
  length posts' = length (Home.posts st)
  /\ (exists P', posts' !! i = Some P'
        /\ Post.is_liked P' = liked
        /\ Post.likes_count P' = likes_count
        /\ Post.id P' = Post.id P
        /\ Post.title P' = Post.title P
        /\ Post.content P' = Post.content P
        /\ Post.topic P' = Post.topic P
        /\ Post.creator P' = Post.creator P
        /\ Post.created_at P' = Post.created_at P
        /\ Post.comments_count P' = Post.comments_count P)
  /\ (forall j Q, Home.posts st !! j = Some Q -> Post.id Q ≠ Post.id P ->
        posts' !! j = Some Q)
  /\ (forall j Q, Home.posts st !! j = Some Q -> Post.id Q = Post.id P ->
        posts' !! j = Some (Post.with_like Q liked likes_count))
  /\ (NoDup (Post.id <$> Home.posts st) ->
        posts' = <[i := Post.with_like P liked likes_count]> (Home.posts st))
  /\ (forall old_liked old_count,
        Post.with_like (Post.with_like P old_liked old_count) liked likes_count
        = Post.with_like P liked likes_count)
  /\ Home.activeTab (eval m w) = Home.activeTab st
  /\ Home.loading (eval m w) = Home.loading st
  /\ Home.error (eval m w) = Home.error st
  /\ network (exec m w)
     = network w ++ [like_request (JNum (Post.id P)) (localStorage w !! "authToken")]
  /\ (forall (postId : string) (dst : PostDetail.state),
        let m' := PostDetail.handleLike false (Resolved (LikeData liked likes_count))
                                        postId P dst in
        PostDetail.post (eval m' w) = Some (Post.with_like P liked likes_count)
        /\ PostDetail.loading (eval m' w) = PostDetail.loading dst
        /\ PostDetail.error (eval m' w) = PostDetail.error dst
        /\ network (exec m' w)
           = network w ++ [like_request (JStr postId) (localStorage w !! "authToken")]).
Proof.
  intros Hi m posts'.
  assert (Hposts : posts' =
            (fun post => if Post.id post =? Post.id P
                         then Post.with_like post liked likes_count else post)
            <$> Home.posts st) by reflexivity.
  assert (Hat : forall j Q, Home.posts st !! j = Some Q ->
            posts' !! j = Some (if Post.id Q =? Post.id P
                                then Post.with_like Q liked likes_count else Q)).
  { intros j Q Hj. rewrite Hposts, list_lookup_fmap, Hj. reflexivity. }
  split; [|split; [|split; [|split; [|split; [|split]]]]].
  - rewrite Hposts. apply length_fmap.
  - exists (Post.with_like P liked likes_count). split.
    + rewrite (Hat i P Hi), Z.eqb_refl. reflexivity.
    + repeat split.
  - intros j Q Hj Hne. rewrite (Hat j Q Hj).
    by destruct (Z.eqb_spec (Post.id Q) (Post.id P)).
  - intros j Q Hj Heq. rewrite (Hat j Q Hj).
    by destruct (Z.eqb_spec (Post.id Q) (Post.id P)).
  - intros Hnd. rewrite Hposts.
    by apply (map_patch_insert (fun q => Post.with_like q liked likes_count)).
  - reflexivity.
  - repeat split.
Qed.

Lemma like_toggle_patches_only_the_liked_post_witness :
  Home.posts
    (eval (Home.handleLike false (Resolved (LikeData true 6)) 1 Sample.feed)
          (page_load ∅))
  = [Post.with_like Sample.budget true 6; Sample.transit]
  /\ Post.likes_count (Post.with_like Sample.budget true 6) = 6
  /\ Post.is_liked (Post.with_like Sample.budget true 6) = true.
Proof.
  destruct (like_toggle_patches_only_the_liked_post
              (page_load ∅) Sample.feed 0%nat Sample.budget true 6 eq_refl)
    as (_ & _ & _ & _ & Hone & _).
  split; [|split; reflexivity].
  apply Hone. by apply (bool_decide_unpack _).
Defined.

(** ** The comment view *)

Lemma handleSubmit_blank (isGuest : bool) (created : reply unit)
    (fetched : reply comments_data) (postId : json) (st : Comments.state)
    (w : world) :
  trim (Comments.newComment st) = "" ->
  Comments.handleSubmit isGuest created fetched postId st w = (st, w).
Proof. intros H. unfold Comments.handleSubmit. by rewrite H. Qed.

Lemma handleSubmit_guest (created : reply unit)
    (fetched : reply comments_data) (postId : json) (st : Comments.state)
    (w : world) :
  trim (Comments.newComment st) ≠ "" ->
  Comments.handleSubmit true created fetched postId st w
  = (st, exec (alert "Please login to comment") w).
Proof.
  intros H. unfold Comments.handleSubmit. by rewrite (str_truthy_ne _ H).
Qed.

Lemma handleSubmit_send (created : reply unit)
    (fetched : reply comments_data) (postId : json) (st : Comments.state)
    (w : world) :
  trim (Comments.newComment st) ≠ "" ->
  Comments.handleSubmit false created fetched postId st w
  = let w1 := World (guestMode w) (currentUsername w) (localStorage w)
                    (network w ++ [create_comment_request postId (Comments.newComment st)
                                     (localStorage w !! "authToken")])
                    (alerts w) in
    match created with
    | Resolved _ =>
        let w2 := World (guestMode w) (currentUsername w) (localStorage w)
                        (network w1 ++ [comments_request postId]) (alerts w) in
        match fetched with
        | Resolved data =>
            (Comments.State (Comments.comment_list data) "" false (Comments.sortBy st), w2)
        | Rejected _ =>
            (Comments.State (Comments.comments st) "" false (Comments.sortBy st), w2)
        end
    | Rejected _ =>
        (Comments.State (Comments.comments st) (Comments.newComment st) false
                        (Comments.sortBy st),
         exec (alert "Failed to post comment") w1)
    end.
Proof.
  intros H. unfold Comments.handleSubmit. rewrite (str_truthy_ne _ H).
  destruct created, fetched; reflexivity.
Qed.

(** C3. In a guest session every write is refused on the spot, with a
    notice to the user and without a network call.  A like toggle, on the
    feed or on the post page, raises the alert "Please login to like
    posts"; the submission of a comment raises the alert "Please login to
    comment" for every text with which the submit button is enabled, that
    is, every text that is not blank.  In each case no request goes out
    (for a comment: whatever the text is) and the view state and the
    session stay as they are.  The comments component itself shows a guest
    the notice "Log in to comment on posts" in the place of the form. *)
Theorem guest_writes_are_refused_locally (w : world) :
  eval authService.isGuest w = true ->
  let isGuest := eval authService.isGuest w in
  (forall r postId st,
     let m := Home.handleLike isGuest r postId st in
     eval m w = st
     /\ network (exec m w) = network w
     /\ alerts (exec m w) = alerts w ++ ["Please login to like posts"]
     /\ session (exec m w) = session w)
  /\ (forall r postId post st,
        let m := PostDetail.handleLike isGuest r postId post st in
        eval m w = st
        /\ network (exec m w) = network w
        /\ alerts (exec m w) = alerts w ++ ["Please login to like posts"]
        /\ session (exec m w) = session w)
  /\ (forall created fetched postId st,
        let m := Comments.handleSubmit isGuest created fetched postId st in
        eval m w = st
        /\ network (exec m w) = network w
        /\ session (exec m w) = session w
        /\ (trim (Comments.newComment st) ≠ "" ->
            alerts (exec m w) = alerts w ++ ["Please login to comment"])
        /\ (Comments.submitDisabled st = false ->
            trim (Comments.newComment st) ≠ ""))
  /\ Comments.formShown isGuest = false
  /\ Comments.guestNotice isGuest = Some "Log in to comment on posts".
Proof.
  intros Hg isGuest. subst isGuest. rewrite Hg.
  split; [|split; [|split; [|split]]].
  - intros r postId st. repeat split.
  - intros r postId post st. repeat split.
  - intros created fetched postId st m. subst m. unfold exec, eval.
    destruct (decide (trim (Comments.newComment st) = "")) as [Hb | Hb].
    + rewrite handleSubmit_blank by done. repeat split; try done.
      unfold Comments.submitDisabled. rewrite Hb.
      by destruct (Comments.loading st).
    + rewrite handleSubmit_guest by done. repeat split; done.
  - reflexivity.
  - reflexivity.
Qed.

Lemma guest_writes_are_refused_locally_witness :
  let st := Comments.State [] "First!" false "likes" in
  let m := Comments.handleSubmit (eval authService.isGuest Sample.guest)
             (Resolved tt) (Resolved NoComments) (JNum 1) st in
  Comments.submitDisabled st = false
  /\ network (exec m Sample.guest) = []
  /\ alerts (exec m Sample.guest) = ["Please login to comment"].
Proof.
  destruct (guest_writes_are_refused_locally Sample.guest eq_refl)
    as (_ & _ & Hsubmit & _).
  destruct (Hsubmit (Resolved tt) (Resolved NoComments) (JNum 1)
              (Comments.State [] "First!" false "likes"))
    as (_ & Hnet & _ & Halert & _).
  split; [reflexivity|]. split.
  - exact Hnet.
  - apply Halert. discriminate.
Defined.

(** C4. A submission by a guest or with blank text is turned down before
    any request: the world's requests and session and the view state are
    as before.  Otherwise the comment is posted; when the post is rejected
    an alert is shown and the list and the text are kept; when it resolves
    the text is cleared and the comment list of the post is requested
    again, and the list in memory becomes the list of that reply, nothing
    being appended locally. *)
Theorem comment_submit_guards_then_reloads
    (w : world) (postId : json) (st : Comments.state) :
  (forall isGuest created fetched,
     isGuest = true \/ trim (Comments.newComment st) = "" ->
     let m := Comments.handleSubmit isGuest created fetched postId st in
     eval m w = st
     /\ network (exec m w) = network w
     /\ session (exec m w) = session w)
  /\ (trim (Comments.newComment st) ≠ "" ->
      let create := create_comment_request postId (Comments.newComment st)
                      (localStorage w !! "authToken") in
      (forall fetched err,
         let m := Comments.handleSubmit false (Rejected err) fetched postId st in
         network (exec m w) = network w ++ [create]
         /\ alerts (exec m w) = alerts w ++ ["Failed to post comment"]
         /\ Comments.comments (eval m w) = Comments.comments st
         /\ Comments.newComment (eval m w) = Comments.newComment st)
      /\ (forall fetched u,
            let m := Comments.handleSubmit false (Resolved u) fetched postId st in
            network (exec m w) = network w ++ [create; comments_request postId]
            /\ alerts (exec m w) = alerts w
            /\ Comments.newComment (eval m w) = ""
            /\ Comments.loading (eval m w) = false)
      /\ (forall data u,
            Comments.comments
              (eval (Comments.handleSubmit false (Resolved u) (Resolved data) postId st) w)
            = Comments.comment_list data)
      /\ (forall err u,
            Comments.comments
              (eval (Comments.handleSubmit false (Resolved u) (Rejected err) postId st) w)
            = Comments.comments st)).
Proof.
  split.
  - intros isGuest created fetched Hor m. subst m. unfold exec, eval.
    destruct (decide (trim (Comments.newComment st) = "")) as [Hb | Hb].
    + rewrite handleSubmit_blank by done. done.
    + destruct Hor as [-> | Hblank]; [|done].
      rewrite handleSubmit_guest by done. done.
  - intros Hb create. unfold exec, eval.
    split; [|split; [|split]].
    + intros fetched err. rewrite handleSubmit_send by done. done.
    + intros fetched u. rewrite handleSubmit_send by done.
      destruct fetched; cbn; rewrite <- app_assoc; done.
    + intros data u. rewrite handleSubmit_send by done. done.
    + intros err u. rewrite handleSubmit_send by done. done.
Qed.

Lemma comment_submit_guards_then_reloads_witness :
  let st := Comments.State [Sample.first] " Well said. " false "likes" in
  let w := exec (authService.login (Resolved (LoginData "9944b09199c6")) "alice" "secret")
                (page_load ∅) in
  Comments.comments
    (eval (Comments.handleSubmit false (Resolved tt)
             (Resolved (CommentsPage [Sample.second; Sample.first])) (JStr "1") st) w)
  = [Sample.second; Sample.first]
  /\ network (exec (Comments.handleSubmit true (Resolved tt)
                      (Resolved (CommentsPage [Sample.second; Sample.first]))
                      (JStr "1") st) w)
     = network w.
Proof.
  intros st w.
  destruct (comment_submit_guards_then_reloads w (JStr "1") st) as [Hguard Hsend].
  split.
  - destruct Hsend as (_ & _ & Hload & _); [discriminate|]. apply Hload.
  - apply (Hguard true). by left.
Defined.

(** ** Sorting *)

Section ArraySortFacts.
Context {A : Type} (compareFn : A -> A -> option Z).

(** The comparator never sends each of two elements behind the other. *)
Hypothesis after_asym :
  forall x y, after compareFn x y = true -> after compareFn y x = false.

Lemma sort_insert_perm (x : A) (l : list A) :
  sort_insert compareFn x l ≡ₚ x :: l.
Proof.
  induction l as [|y l IH]; cbn; [done|].
  destruct (after compareFn x y); [|done].
  rewrite IH. apply Permutation_swap.
Qed.

Lemma Array_sort_perm (l : list A) : Array_sort compareFn l ≡ₚ l.
Proof.
  induction l as [|x l IH]; cbn; [done|].
  by rewrite sort_insert_perm, IH.
Qed.

Lemma sort_insert_sorted (x : A) (l : list A) :
  sorted_by (in_order compareFn) l = true ->
  sorted_by (in_order compareFn) (sort_insert compareFn x l) = true.
Proof.
  induction l as [|y l IH]; [done|].
  intros Hl. cbn [sort_insert].
  destruct (after compareFn x y) eqn:Hxy.
  - destruct l as [|z l].
    + cbn. unfold in_order. by rewrite (after_asym x y Hxy).
    + cbn [sorted_by] in Hl. apply andb_true_iff in Hl as [Hyz Hl].
      specialize (IH Hl). cbn [sort_insert] in *.
      destruct (after compareFn x z) eqn:Hxz.
      * cbn [sorted_by] in *. by rewrite Hyz, IH.
      * cbn [sorted_by] in *. unfold in_order at 1.
        by rewrite (after_asym x y Hxy), IH.
  - change (in_order compareFn x y && sorted_by (in_order compareFn) (y :: l) = true).
    unfold in_order at 1. by rewrite Hxy, Hl.
Qed.

Lemma Array_sort_sorted (l : list A) :
  sorted_by (in_order compareFn) (Array_sort compareFn l) = true.
Proof.
  induction l as [|x l IH]; [done|]. by apply sort_insert_sorted.
Qed.
End ArraySortFacts.

(** A list whose neighbours are in order comes back from the sort as it
    is, whatever the comparator. *)
Lemma Array_sort_fixed {A : Type} (compareFn : A -> A -> option Z) (l : list A) :
  sorted_by (in_order compareFn) l = true -> Array_sort compareFn l = l.
Proof.
  induction l as [|x l IH]; [done|].
  intros Hl. cbn [Array_sort].
  destruct l as [|y l]; [done|].
  cbn [sorted_by] in Hl. apply andb_true_iff in Hl as [Hxy Hl].
  rewrite (IH Hl). cbn [sort_insert].
  unfold in_order in Hxy. by destruct (after compareFn x y).
Qed.

Lemma Array_sort_idem {A : Type} (compareFn : A -> A -> option Z) (l : list A) :
  (forall x y, after compareFn x y = true -> after compareFn y x = false) ->
  Array_sort compareFn (Array_sort compareFn l) = Array_sort compareFn l.
Proof. intros Hasym. by apply Array_sort_fixed, Array_sort_sorted. Qed.

Lemma sorted_by_weaken {A : Type} (le1 le2 : A -> A -> bool) (P : A -> bool)
    (l : list A) :
  (forall x y, P x = true -> P y = true -> le1 x y = true -> le2 x y = true) ->
  forallb P l = true ->
  sorted_by le1 l = true -> sorted_by le2 l = true.
Proof.
  intros Hle. induction l as [|x l IH]; [done|].
  destruct l as [|y l]; [done|].
  cbn [forallb sorted_by] in *.
  intros [Hx [Hy Hl]%andb_true_iff]%andb_true_iff [Hxy Hs]%andb_true_iff.
  rewrite (Hle x y Hx Hy Hxy). apply IH; [|done].
  by rewrite Hy, Hl.
Qed.

Section CommentOrders.
Variable Date_parse : string -> option Z.

Lemma by_likes_asym (x y : Comment.t) :
  after Comments.by_likes x y = true -> after Comments.by_likes y x = false.
Proof.
  unfold after, Comments.by_likes.
  intros H%Z.ltb_lt. apply Z.ltb_ge. lia.
Qed.

Lemma by_newest_asym (x y : Comment.t) :
  after (Comments.by_newest Date_parse) x y = true ->
  after (Comments.by_newest Date_parse) y x = false.
Proof.
  unfold after, Comments.by_newest, js_sub.
  destruct (Date_parse (Comment.created_at x)),
           (Date_parse (Comment.created_at y)); try done.
  intros H%Z.ltb_lt. apply Z.ltb_ge. lia.
Qed.

Lemma by_oldest_asym (x y : Comment.t) :
  after (Comments.by_oldest Date_parse) x y = true ->
  after (Comments.by_oldest Date_parse) y x = false.
Proof.
  unfold after, Comments.by_oldest, js_sub.
  destruct (Date_parse (Comment.created_at x)),
           (Date_parse (Comment.created_at y)); try done.
  intros H%Z.ltb_lt. apply Z.ltb_ge. lia.
Qed.

Lemma in_order_by_likes (x y : Comment.t) :
  in_order Comments.by_likes x y = more_liked_or_same x y.
Proof.
  unfold in_order, after, Comments.by_likes, more_liked_or_same.
  destruct (Z.ltb_spec 0 (default 0 (Comment.likes_count y)
                          - default 0 (Comment.likes_count x)));
    destruct (Z.leb_spec (default 0 (Comment.likes_count y))
                         (default 0 (Comment.likes_count x)));
    cbn; try reflexivity; lia.
Qed.

(** On valid dates, [in_order] for the newest comparator is "not older". *)
Lemma in_order_by_newest (x y : Comment.t) :
  valid_date Date_parse x = true -> valid_date Date_parse y = true ->
  in_order (Comments.by_newest Date_parse) x y = newer_or_same Date_parse x y.
Proof.
  unfold valid_date, in_order, after, Comments.by_newest, js_sub, newer_or_same.
  intros [tx Hx]%bool_decide_eq_true [ty Hy]%bool_decide_eq_true.
  rewrite Hx, Hy.
  destruct (Z.ltb_spec 0 (ty - tx)); destruct (Z.leb_spec ty tx);
    cbn; try reflexivity; lia.
Qed.

Lemma in_order_by_oldest (x y : Comment.t) :
  valid_date Date_parse x = true -> valid_date Date_parse y = true ->
  in_order (Comments.by_oldest Date_parse) x y = older_or_same Date_parse x y.
Proof.
  unfold valid_date, in_order, after, Comments.by_oldest, js_sub,
    older_or_same, newer_or_same.
  intros [tx Hx]%bool_decide_eq_true [ty Hy]%bool_decide_eq_true.
  rewrite Hx, Hy.
  destruct (Z.ltb_spec 0 (tx - ty)); destruct (Z.leb_spec tx ty);
    cbn; try reflexivity; lia.
Qed.

(** "Not older", which asks for valid dates, is stronger than what the
    sort needs to leave two neighbours alone. *)
Lemma newer_or_same_in_order (x y : Comment.t) :
  newer_or_same Date_parse x y = true ->
  in_order (Comments.by_newest Date_parse) x y = true.
Proof.
  unfold in_order, after, Comments.by_newest, js_sub, newer_or_same.
  destruct (Date_parse (Comment.created_at x)) as [tx|],
           (Date_parse (Comment.created_at y)) as [ty|]; try done.
  intros H%Z.leb_le. apply negb_true_iff, Z.ltb_ge. lia.
Qed.

Lemma forallb_perm {B : Type} (P : B -> bool) (l l' : list B) :
  l ≡ₚ l' -> forallb P l' = true -> forallb P l = true.
Proof.
  intros Hp H. apply forallb_forall. intros x Hx.
  eapply forallb_forall in H; [done|]. by eapply Permutation_in.
Qed.

Lemma getSortedComments_mode (mode : string) (st : Comments.state) :
  Comments.getSortedComments Date_parse (Comments.setSortBy mode st)
  = if String.eqb mode "likes"
    then Array_sort Comments.by_likes (Comments.comments st)
    else if String.eqb mode "newest"
    then Array_sort (Comments.by_newest Date_parse) (Comments.comments st)
    else if String.eqb mode "oldest"
    then Array_sort (Comments.by_oldest Date_parse) (Comments.comments st)
    else Comments.comments st.
Proof. reflexivity. Qed.

(** C8. A comment list whose dates are valid and already run from newest
    to oldest is returned unchanged by the newest sort.  For each of the
    sort modes the displayed list is a rearrangement of the fetched
    comments, sorting the displayed list again in the same mode changes
    nothing, the list ends up ordered as the mode says (by likes
    descending; by date descending or ascending when the dates are
    valid), and choosing a mode only sets [sortBy]: no request goes out
    and the fetched comments stay in place. *)
Theorem comment_resort_is_idempotent_and_local (st : Comments.state) :
  (sorted_by (newer_or_same Date_parse) (Comments.comments st) = true ->
     Comments.getSortedComments Date_parse (Comments.setSortBy "newest" st)
     = Comments.comments st)
  /\ (forall mode,
        let view := Comments.getSortedComments Date_parse
                      (Comments.setSortBy mode st) in
        view ≡ₚ Comments.comments st
        /\ Comments.getSortedComments Date_parse
             (Comments.setSortBy mode (Comments.setComments view st))
           = view)
  /\ sorted_by more_liked_or_same
       (Comments.getSortedComments Date_parse (Comments.setSortBy "likes" st))
     = true
  /\ (forallb (valid_date Date_parse) (Comments.comments st) = true ->
        sorted_by (newer_or_same Date_parse)
          (Comments.getSortedComments Date_parse (Comments.setSortBy "newest" st))
        = true
        /\ sorted_by (older_or_same Date_parse)
             (Comments.getSortedComments Date_parse (Comments.setSortBy "oldest" st))
           = true)
  /\ (forall r mode postId w,
        Comments.clickSort r mode postId st w = (Comments.setSortBy mode st, w)
        /\ Comments.comments (Comments.setSortBy mode st) = Comments.comments st).
Proof.
  split; [|split; [|split; [|split]]].
  - intros Hs. rewrite getSortedComments_mode. cbn.
    apply Array_sort_fixed.
    eapply (sorted_by_weaken _ _ (fun _ => true)); [| |exact Hs].
    + intros x y _ _. apply newer_or_same_in_order.
    + by apply forallb_forall.
  - intros mode view. subst view. rewrite !getSortedComments_mode. cbn.
    destruct (String.eqb mode "likes");
      [|destruct (String.eqb mode "newest");
        [|destruct (String.eqb mode "oldest")]].
    + split; [apply Array_sort_perm|].
      apply Array_sort_idem, by_likes_asym.
    + split; [apply Array_sort_perm|].
      apply Array_sort_idem, by_newest_asym.
    + split; [apply Array_sort_perm|].
      apply Array_sort_idem, by_oldest_asym.
    + done.
  - rewrite getSortedComments_mode. cbn.
    eapply (sorted_by_weaken _ _ (fun _ => true));
      [| |apply (Array_sort_sorted _ by_likes_asym)].
    + intros x y _ _. by rewrite in_order_by_likes.
    + by apply forallb_forall.
  - intros Hvalid. rewrite !getSortedComments_mode. cbn. split.
    + eapply (sorted_by_weaken _ _ (valid_date Date_parse));
        [| |apply (Array_sort_sorted _ by_newest_asym)].
      * intros x y Hx Hy. by rewrite in_order_by_newest.
      * eapply forallb_perm; [apply Array_sort_perm|done].
    + eapply (sorted_by_weaken _ _ (valid_date Date_parse));
        [| |apply (Array_sort_sorted _ by_oldest_asym)].
      * intros x y Hx Hy. by rewrite in_order_by_oldest.
      * eapply forallb_perm; [apply Array_sort_perm|done].
  - done.
Qed.
End CommentOrders.

Lemma comment_resort_is_idempotent_and_local_witness :
  Comments.getSortedComments Sample.Date_parse
    (Comments.setSortBy "newest" Sample.thread)
  = [Sample.third; Sample.second; Sample.first]
  /\ sorted_by (older_or_same Sample.Date_parse)
       (Comments.getSortedComments Sample.Date_parse
          (Comments.setSortBy "oldest" Sample.thread))
     = true.
Proof.
  destruct (comment_resort_is_idempotent_and_local Sample.Date_parse Sample.thread)
    as (Hfixed & _ & _ & Hdates & _).
  split.
  - apply Hfixed. reflexivity.
  - apply Hdates. reflexivity.
Defined.

(** ** Registration *)

(** C5. On the registration form, two different passwords stop the
    submission before any request: the form shows "Passwords do not match"
    and the world is as before.  [authService.register] sends the one
    registration request and, whatever the reply, changes neither the
    guest flag nor the in-memory user name nor the storage.  With matching
    passwords a rejected registration leaves the session as it was; after
    a successful one the form goes on to call [login], and the session
    changes only through that call: a rejected login leaves the session as
    it was, a resolved one stores its token. *)
Theorem register_checks_passwords_and_does_not_authenticate
    (w : world) (st : Login.state) :
  Login.isLogin st = false ->
  let f := Login.formData st in
  (Login.password f ≠ Login.password2 f ->
     forall registered logged,
       let m := Login.handleSubmit registered logged st in
       exec m w = w
       /\ Login.error (fst (eval m w)) = "Passwords do not match"
       /\ Login.loading (fst (eval m w)) = false
       /\ snd (eval m w) = false)
  /\ (forall r u e p p2,
        let m := authService.register r u e p p2 in
        session (exec m w) = session w
        /\ alerts (exec m w) = alerts w
        /\ network (exec m w) = network w ++ [register_request (Login.Form u e p p2)]
        /\ eval m w
           = match r with
             | Resolved _ => authService.Success None
             | Rejected err =>
                 authService.Failure
                   (or_else (err_data err) (JStr "Registration failed"))
             end)
  /\ (Login.password f = Login.password2 f ->
      (forall err logged,
         let m := Login.handleSubmit (Rejected err) logged st in
         session (exec m w) = session w
         /\ network (exec m w) = network w ++ [register_request f]
         /\ snd (eval m w) = false)
      /\ (forall u err,
            let m := Login.handleSubmit (Resolved u) (Rejected err) st in
            session (exec m w) = session w
            /\ network (exec m w)
               = network w ++ [register_request f;
                               login_request (Login.username f) (Login.password f)]
            /\ Login.error (fst (eval m w))
               = "Registration successful, but login failed. Please try logging in."
            /\ snd (eval m w) = false)
      /\ (forall u tok,
            let m := Login.handleSubmit (Resolved u) (Resolved (LoginData tok)) st in
            network (exec m w)
            = network w ++ [register_request f;
                            login_request (Login.username f) (Login.password f)]
            /\ localStorage (exec m w) !! "authToken" = Some tok
            /\ localStorage (exec m w) !! "username" = Some (Login.username f)
            /\ guestMode (exec m w) = false
            /\ currentUsername (exec m w) = Some (Login.username f)
            /\ snd (eval m w) = true)).
Proof.
  intros Hreg f. destruct st as [isLogin [un em pw pw2] err0 ld].
  cbn in Hreg, f. subst isLogin f. cbn [Login.formData Login.password Login.password2 Login.username].
  split; [|split].
  - intros Hne registered logged.
    unfold Login.handleSubmit. cbn.
    destruct (String.eqb_spec pw pw2) as [Heq | _]; [done|]. done.
  - intros r u e p p2. destruct r; run; done.
  - intros <-. unfold Login.handleSubmit. cbn. rewrite String.eqb_refl. cbn.
    split; [|split].
    + intros err logged. run. done.
    + intros u err. run. rewrite <- app_assoc. done.
    + intros u tok. run. rewrite <- app_assoc.
      repeat split; try done.
      * rewrite lookup_insert_ne; [|done]. apply lookup_insert_eq.
      * apply lookup_insert_eq.
Qed.

Lemma register_checks_passwords_and_does_not_authenticate_witness :
  let typo := Login.State false
                (Login.Form "carol" "carol@example.org" "hunter2" "hunter3")
                "" false in
  exec (Login.handleSubmit (Resolved tt) (Resolved (LoginData "9944b09199c6")) typo)
       (page_load ∅)
  = page_load ∅
  /\ session (exec (Login.handleSubmit (Resolved tt)
                      (Rejected (AxiosError None "Network Error")) Sample.signup)
                   (page_load ∅))
     = session (page_load ∅).
Proof.
  intros typo. split.
  - destruct (register_checks_passwords_and_does_not_authenticate
                (page_load ∅) typo eq_refl) as (Hdiff & _).
    apply Hdiff. discriminate.
  - destruct (register_checks_passwords_and_does_not_authenticate
                (page_load ∅) Sample.signup eq_refl) as (_ & _ & Hsame).
    destruct Hsame as (_ & Hfail & _); [reflexivity|].
    apply (Hfail tt).
Defined.

(** ** The model on concrete inputs *)

Example trim_spaces : trim "  Well said. " = "Well said.".
Proof. reflexivity. Qed.

Example trim_blank : trim (String "009" (String "010" "  ")) = "".
Proof. reflexivity. Qed.

(** U+00A0 in front, U+3000 behind. *)
Example trim_unicode :
  trim (String "194" (String "160" (String "a" (String "227" (String "128" (String "128" ""))))))
  = "a".
Proof. reflexivity. Qed.

(** A byte that only looks like the tail of a white space is kept. *)
Example trim_keeps_other_bytes :
  trim (String "195" (String "160" "")) = String "195" (String "160" "").
Proof. reflexivity. Qed.

Example to_string_values :
  to_string (JNum (-7)) = "-7"
  /\ to_string (JArr [JNum 1; JNull; JStr "x"]) = "1,,x"
  /\ to_string (JObj [("error", JStr "no")]) = "[object Object]".
Proof. repeat split. Qed.

Example or_else_values :
  or_else (Some (JStr "")) (JStr "Login failed") = JStr "Login failed"
  /\ or_else (Some (JObj [])) (JStr "Login failed") = JObj []
  /\ or_else None (JStr "Login failed") = JStr "Login failed".
Proof. repeat split. Qed.

(** By likes: 4, 1, then the comment without a count. *)
Example sort_by_likes :
  Comments.getSortedComments Sample.Date_parse Sample.thread
  = [Sample.first; Sample.third; Sample.second].
Proof. reflexivity. Qed.

Example sort_by_oldest :
  Comments.getSortedComments Sample.Date_parse
    (Comments.setSortBy "oldest" Sample.thread)
  = [Sample.first; Sample.second; Sample.third].
Proof. reflexivity. Qed.

(** Comments with equal keys keep their order. *)
Example sort_is_stable :
  Array_sort Comments.by_likes
    [Comment.mk 1 "a" None "" (Some 2); Comment.mk 2 "b" None "" (Some 5);
     Comment.mk 3 "c" None "" (Some 2); Comment.mk 4 "d" None "" (Some 5)]
  = [Comment.mk 2 "b" None "" (Some 5); Comment.mk 4 "d" None "" (Some 5);
     Comment.mk 1 "a" None "" (Some 2); Comment.mk 3 "c" None "" (Some 2)].
Proof. reflexivity. Qed.

Example guest_session :
  session_of Sample.guest = Guest
  /\ eval authService.getUsername Sample.guest = "Guest"
  /\ eval authService.isAuthenticated Sample.guest = true.
Proof. repeat split. Qed.

(** A token that is the empty string is stored but does not count. *)
Example empty_token_is_falsy :
  let w := exec (authService.login (Resolved (LoginData "")) "alice" "secret")
                (page_load ∅) in
  localStorage w !! "authToken" = Some ""
  /\ eval authService.isAuthenticated w = false.
Proof. split; reflexivity. Qed.

Example feed_request_of_guest :
  network (exec (Home.fetchPosts (Resolved (PostsPage None)) Home.initial) Sample.guest)
  = [Request GET "http://127.0.0.1:8000/api/posts/"
             [("page", JNum 1); ("page_size", JNum 20); ("ordering", JStr "-likes_count")]
             None [("Authorization", "Token null")]].
Proof. reflexivity. Qed.

(** * Further properties of the code *)

Ltac run_more :=
  unfold Navbar.handleLogout, App.handleLogout, App.initial,
    App.handleThemeToggle, App.handleLoginSuccess, Login.handleGuestMode,
    themeService.isDarkMode, authService.getToken,
    postAPI.createPost, postAPI.updatePost, postAPI.deletePost,
    topicAPI.getAllTopics, topicAPI.getTopic, topicAPI.createTopic,
    reactionAPI.likePost, reactionAPI.unlikePost;
  run.

(** ** services/auth.js *)

(** Equality of two storages, key by key, the two credential keys first. *)
Ltac credentials_lookup :=
  repeat first
    [ rewrite lookup_delete_eq | rewrite lookup_insert_eq
    | rewrite lookup_delete_ne by done | rewrite lookup_insert_ne by done ].

Ltac credentials_eq :=
  let k := fresh "k" in
  apply map_eq; intros k;
  destruct (decide (k = "username")) as [-> | ?];
    [credentials_lookup; done|];
  destruct (decide (k = "authToken")) as [-> | ?];
    credentials_lookup; done.

Lemma delete_credentials_insert (ls : gmap string string) (u t : string) :
  delete "username" (delete "authToken"
    (<["username" := u]> (<["authToken" := t]> ls)))
  = delete "username" (delete "authToken" ls).
Proof.
  apply map_eq. intros k.
  destruct (decide (k = "username")) as [-> | Hu].
  { by rewrite !lookup_delete_eq. }
  rewrite !(lookup_delete_ne _ "username") by done.
  destruct (decide (k = "authToken")) as [-> | Ht].
  { by rewrite !lookup_delete_eq. }
  rewrite !(lookup_delete_ne _ "authToken") by done.
  by rewrite !lookup_insert_ne.
Qed.

Lemma insert_credentials_delete (ls : gmap string string) (u t : string) :
  <["username" := u]> (<["authToken" := t]>
    (delete "username" (delete "authToken" ls)))
  = <["username" := u]> (<["authToken" := t]> ls).
Proof.
  apply map_eq. intros k.
  destruct (decide (k = "username")) as [-> | Hu].
  { by rewrite !lookup_insert_eq. }
  rewrite !(lookup_insert_ne _ "username") by done.
  destruct (decide (k = "authToken")) as [-> | Ht].
  { by rewrite !lookup_insert_eq. }
  rewrite !(lookup_insert_ne _ "authToken") by done.
  by rewrite !lookup_delete_ne.
Qed.

Lemma insert_credentials_twice (ls : gmap string string) (u1 t1 u2 t2 : string) :
  <["username" := u2]> (<["authToken" := t2]>
    (<["username" := u1]> (<["authToken" := t1]> ls)))
  = <["username" := u2]> (<["authToken" := t2]> ls).
Proof.
  apply map_eq. intros k.
  destruct (decide (k = "username")) as [-> | Hu].
  { by rewrite !lookup_insert_eq. }
  rewrite !(lookup_insert_ne _ "username") by done.
  destruct (decide (k = "authToken")) as [-> | Ht].
  { by rewrite !lookup_insert_eq. }
  by rewrite !lookup_insert_ne.
Qed.

Lemma logout_spec (w : world) :
  authService.logout w
  = (tt, World false None
           (delete "username" (delete "authToken" (localStorage w)))
           (network w) (alerts w)).
Proof. reflexivity. Qed.

Lemma loginAsGuest_spec (w : world) :
  authService.loginAsGuest w
  = (authService.Success (Some (authService.User "Guest" None)),
     World true (Some "Guest")
           (delete "username" (delete "authToken" (localStorage w)))
           (network w) (alerts w)).
Proof. reflexivity. Qed.

Lemma login_resolved_spec (w : world) (d : login_data) (u p : string) :
  authService.login (Resolved d) u p w
  = (authService.Success (Some (authService.User u (Some (token d)))),
     World false (Some u)
           (<["username" := u]> (<["authToken" := token d]> (localStorage w)))
           (network w ++ [login_request u p]) (alerts w)).
Proof. reflexivity. Qed.

Lemma login_rejected_spec (w : world) (err : axios_error) (u p : string) :
  authService.login (Rejected err) u p w
  = (authService.Failure (or_else (err_data err) (JStr "Login failed")),
     World (guestMode w) (currentUsername w) (localStorage w)
           (network w ++ [login_request u p]) (alerts w)).
Proof. reflexivity. Qed.

Ltac session_ops :=
  unfold exec, eval;
  rewrite ?logout_spec, ?loginAsGuest_spec, ?login_resolved_spec,
    ?login_rejected_spec;
  cbn [fst snd guestMode currentUsername localStorage network alerts].

(** X1. Logging out ends every session: whatever the world was, the
    session is anonymous afterwards, no token and no user name are stored,
    the display name is "Guest", and the other keys of the storage, the
    requests and the alerts are as before. *)
Theorem logout_ends_every_session (w : world) :
  let w' := exec authService.logout w in
  eval authService.isAuthenticated w' = false
  /\ eval authService.isGuest w' = false
  /\ session_of w' = Anonymous
  /\ eval authService.getUsername w' = "Guest"
  /\ eval authService.getToken w' = None
  /\ localStorage w' !! "username" = None
  /\ (forall k, k ≠ "authToken" -> k ≠ "username" ->
        localStorage w' !! k = localStorage w !! k)
  /\ network w' = network w
  /\ alerts w' = alerts w.
Proof.
  intros w'.
  assert (Ht : localStorage w' !! "authToken" = None).
  { subst w'. run. rewrite lookup_delete_ne; [|done]. apply lookup_delete_eq. }
  assert (Hu : localStorage w' !! "username" = None).
  { subst w'. run. apply lookup_delete_eq. }
  assert (Hg : guestMode w' = false) by reflexivity.
  assert (Hc : currentUsername w' = None) by reflexivity.
  split; [by rewrite isAuthenticated_spec, Ht, Hg|].
  split; [by rewrite isGuest_spec, Hg|].
  split.
  { unfold session_of. by rewrite isGuest_spec, isAuthenticated_spec, Ht, Hg. }
  split.
  { unfold eval, authService.getUsername, mbind, M_bind, mret, M_ret,
      get_currentUsername, getItem. cbn. by rewrite Hc, Hu. }
  split; [exact Ht|]. split; [exact Hu|].
  split; [|done].
  intros k Hk1 Hk2. subst w'. run. by rewrite !lookup_delete_ne.
Qed.

(** X2. A logout wipes out what was there before: logging out twice is
    logging out once, and the session after a logout is the same whether
    or not a login (answered in any way) or a guest entry came before it.
    The navbar's logout, which calls [logout] itself and again through the
    app's callback, leaves the world of a single logout, clears the app's
    flag and goes to the login page. *)
Theorem logout_absorbs_what_came_before (w : world) :
  exec authService.logout (exec authService.logout w) = exec authService.logout w
  /\ (forall r u p,
        session (exec authService.logout (exec (authService.login r u p) w))
        = session (exec authService.logout w))
  /\ session (exec authService.logout (exec authService.loginAsGuest w))
     = session (exec authService.logout w)
  /\ (forall app,
        exec (Navbar.handleLogout app) w = exec authService.logout w
        /\ eval (Navbar.handleLogout app) w
           = (App.State false (App.isDarkMode app), "/login")).
Proof.
  split; [|split; [|split]].
  - session_ops. f_equal. credentials_eq.
  - intros [d | err] u p; unfold session; session_ops; [|done].
    by rewrite delete_credentials_insert.
  - unfold session. session_ops. f_equal. credentials_eq.
  - intros app. unfold Navbar.handleLogout, App.handleLogout.
    unfold exec, eval, mbind, M_bind, mret, M_ret.
    rewrite !logout_spec. cbn [fst snd localStorage network alerts].
    split; [|reflexivity]. f_equal. credentials_eq.
Qed.

Lemma initAuth_spec (w : world) :
  exec authService.initAuth w
  = if opt_truthy (localStorage w !! "authToken")
       && opt_truthy (localStorage w !! "username")
    then World false (localStorage w !! "username") (localStorage w)
               (network w) (alerts w)
    else w.
Proof. run. by destruct (_ && _). Qed.

Lemma initAuth_username_consistent (w : world) :
  username_consistent w -> username_consistent (exec authService.initAuth w).
Proof.
  intros H. rewrite initAuth_spec.
  destruct (opt_truthy _ && opt_truthy _) eqn:E; [|done].
  apply andb_true_iff in E as [Et Eu].
  unfold username_consistent. cbn.
  destruct (localStorage w !! "username") as [u|]; [|done].
  destruct (localStorage w !! "authToken") as [t|]; [|done].
  eauto.
Qed.

Lemma perform_username_consistent (a : action) (w : world) :
  username_consistent w -> username_consistent (perform a w).
Proof.
  destruct a; try (by apply initAuth_username_consistent).
  all: unfold username_consistent.
  all: try destruct r; unfold perform; run; try done.
  - intros _. split; [apply lookup_insert_eq|].
    rewrite lookup_insert_ne by done. rewrite lookup_insert_eq. eauto.
  - intros _. split; [done|]. apply lookup_delete_eq.
  - intros H. by rewrite !lookup_insert_ne.
  - intros H. destruct (opt_truthy _); cbn; by rewrite !lookup_insert_ne.
Qed.

Lemma reachable_username_consistent (w : world) :
  reachable w -> username_consistent w.
Proof.
  induction 1 as [storage | a w Hw IH].
  - reflexivity.
  - by apply perform_username_consistent.
Qed.

(** X3. A login is kept over a reload.  After a login answered with a
    non-empty token under a non-empty name, a page load over the storage
    it left, followed by [initAuth], is an authenticated session of the
    same user with the same token; [initAuth] has then put the name back
    into memory. *)
Theorem login_survives_reload (w : world) (username password tok : string) :
  tok ≠ "" -> username ≠ "" ->
  let w1 := exec (authService.login (Resolved (LoginData tok)) username password) w in
  let w2 := exec authService.initAuth (page_load (localStorage w1)) in
  session_of w2 = Authenticated
  /\ eval authService.isGuest w2 = false
  /\ eval authService.getUsername w2 = username
  /\ eval authService.getToken w2 = Some tok
  /\ currentUsername w2 = Some username
  /\ localStorage w2 = localStorage w1.
Proof.
  intros Ht Hu w1 w2.
  assert (Hw2 : w2 = World false (Some username) (localStorage w1) [] []).
  { subst w2 w1. run.
    rewrite lookup_insert_ne by done. rewrite !lookup_insert_eq. cbn.
    by rewrite (str_truthy_ne _ Ht), (str_truthy_ne _ Hu). }
  assert (Htok : localStorage w1 !! "authToken" = Some tok).
  { subst w1. run. rewrite lookup_insert_ne by done. apply lookup_insert_eq. }
  rewrite Hw2. unfold session_of. rewrite isGuest_spec, isAuthenticated_spec.
  cbn [guestMode localStorage currentUsername]. rewrite Htok. cbn.
  rewrite (str_truthy_ne _ Ht). cbn.
  repeat split; try done.
  run. by rewrite (str_truthy_ne _ Hu).
Qed.

Lemma login_survives_reload_witness :
  eval authService.getUsername
    (exec authService.initAuth
       (page_load (localStorage
          (exec (authService.login (Resolved (LoginData "9944b09199c6")) "alice" "secret")
                Sample.guest))))
  = "alice".
Proof.
  apply (login_survives_reload Sample.guest "alice" "secret" "9944b09199c6");
    discriminate.
Defined.

(** X4. In every reachable world [initAuth] cannot be observed through
    the session store: [isAuthenticated()], [isGuest()], [getUsername()]
    and [getToken()] answer as before, and the storage, the guest flag, the
    requests and the alerts are unchanged.  It only fills in the in-memory
    name from the storage. *)
Theorem initAuth_is_unobservable (w : world) :
  reachable w ->
  let w' := exec authService.initAuth w in
  eval authService.isAuthenticated w' = eval authService.isAuthenticated w
  /\ eval authService.isGuest w' = eval authService.isGuest w
  /\ eval authService.getUsername w' = eval authService.getUsername w
  /\ eval authService.getToken w' = eval authService.getToken w
  /\ session_of w' = session_of w
  /\ localStorage w' = localStorage w
  /\ guestMode w' = guestMode w
  /\ network w' = network w
  /\ alerts w' = alerts w.
Proof.
  intros Hw w'.
  pose proof (reachable_guest_no_token w Hw) as Hg.
  pose proof (reachable_username_consistent w Hw) as Hc.
  unfold username_consistent in Hc.
  assert (Hw' : w' = w \/
            exists t u, localStorage w !! "authToken" = Some t
                        /\ localStorage w !! "username" = Some u
                        /\ str_truthy t = true /\ str_truthy u = true
                        /\ w' = World false (Some u) (localStorage w)
                                      (network w) (alerts w)).
  { subst w'. rewrite initAuth_spec.
    destruct (localStorage w !! "authToken") as [t|]; cbn; [|by left].
    destruct (localStorage w !! "username") as [u|]; cbn;
      [|left; by rewrite andb_false_r].
    destruct (str_truthy t) eqn:Et, (str_truthy u) eqn:Eu; cbn;
      try (by left).
    right. eauto 10. }
  destruct Hw' as [-> | (t & u & Ht & Hu & Et & Eu & ->)]; [done|].
  assert (Hgm : guestMode w = false).
  { destruct (guestMode w); [|done]. rewrite Hg in Ht; done. }
  assert (Hname : eval authService.getUsername w = u).
  { run. rewrite Hu. rewrite Hgm in Hc.
    destruct (currentUsername w) as [c|]; cbn.
    - destruct Hc as [Hc _]. rewrite Hu in Hc. injection Hc as <-.
      by rewrite Eu.
    - by rewrite Eu. }
  unfold session_of. rewrite !isGuest_spec, !isAuthenticated_spec, Hname.
  cbn [guestMode localStorage network alerts]. rewrite Hgm.
  repeat split; try done.
  run. by rewrite Eu.
Qed.

Lemma initAuth_is_unobservable_witness :
  let w := page_load (<["username" := "alice"]> (<["authToken" := "9944b09199c6"]> ∅)) in
  eval authService.getUsername (exec authService.initAuth w)
  = eval authService.getUsername w.
Proof.
  intros w.
  apply (initAuth_is_unobservable w). apply reachable_load.
Defined.

(** X5. The display name is never empty.  In a reachable guest session it
    is "Guest"; in a reachable session that is not a guest's and has a
    non-empty name in the storage it is that stored name. *)
Theorem getUsername_is_never_empty (w : world) :
  eval authService.getUsername w ≠ ""
  /\ (reachable w -> eval authService.isGuest w = true ->
        eval authService.getUsername w = "Guest")
  /\ (reachable w -> guestMode w = false ->
        forall u, localStorage w !! "username" = Some u -> u ≠ "" ->
        eval authService.getUsername w = u).
Proof.
  split; [|split].
  - run. destruct (currentUsername w) as [c|]; cbn.
    + destruct (str_truthy c) eqn:Ec.
      * intros ->. discriminate.
      * destruct (localStorage w !! "username") as [u|]; cbn; [|done].
        destruct (str_truthy u) eqn:Eu; [|done]. intros ->. discriminate.
    + destruct (localStorage w !! "username") as [u|]; cbn; [|done].
      destruct (str_truthy u) eqn:Eu; [|done]. intros ->. discriminate.
  - intros Hw Hg. rewrite isGuest_spec in Hg.
    apply andb_true_iff in Hg as [Hg _].
    pose proof (reachable_username_consistent w Hw) as Hc.
    unfold username_consistent in Hc. rewrite Hg in Hc.
    run. destruct (currentUsername w) as [c|]; [|done].
    destruct Hc as [-> Hu]. reflexivity.
  - intros Hw Hg u Hu Hne.
    pose proof (reachable_username_consistent w Hw) as Hc.
    unfold username_consistent in Hc. rewrite Hg in Hc.
    run. rewrite Hu. cbn. rewrite (str_truthy_ne _ Hne).
    destruct (currentUsername w) as [c|]; cbn; [|done].
    destruct Hc as [Hc _]. rewrite Hu in Hc. injection Hc as <-.
    by rewrite (str_truthy_ne _ Hne).
Qed.

Lemma getUsername_is_never_empty_witness :
  eval authService.getUsername Sample.guest = "Guest".
Proof.
  destruct (getUsername_is_never_empty Sample.guest) as (_ & Hguest & _).
  apply Hguest; [|reflexivity].
  apply (reachable_step ALoginAsGuest), reachable_load.
Defined.

(** X6. A successful login starts from scratch: the session it leaves is
    the same whether it follows an earlier login (answered in any way), a
    guest entry or a logout, or none of them. *)
Theorem login_replaces_any_earlier_session
    (w : world) (username password tok : string) :
  let login := authService.login (Resolved (LoginData tok)) username password in
  (forall r u p,
     session (exec login (exec (authService.login r u p) w))
     = session (exec login w))
  /\ session (exec login (exec authService.loginAsGuest w)) = session (exec login w)
  /\ session (exec login (exec authService.logout w)) = session (exec login w).
Proof.
  intros login. subst login. unfold session. split; [|split].
  - intros [d | err] u p; session_ops; [|done].
    by rewrite insert_credentials_twice.
  - session_ops. by rewrite insert_credentials_delete.
  - session_ops. by rewrite insert_credentials_delete.
Qed.

(** ** pages/Login.js *)

Lemma str_truthy_nonempty (s : string) : str_truthy s = true -> s ≠ "".
Proof. intros H ->. discriminate. Qed.

Lemma string_or_nonempty (d : option json) (fallback : string) :
  fallback ≠ "" -> Login.string_or (or_else d (JStr fallback)) fallback ≠ "".
Proof.
  intros Hf. unfold or_else.
  destruct d as [v|]; [|done].
  destruct (truthy (Some v)) eqn:Hv; [|done].
  destruct v; try done. cbn in *. by apply str_truthy_nonempty.
Qed.

(** X7. Submitting the login form, in either mode and whatever the
    backend answers, ends with [loading] off and the typed data in place,
    shows no alert, and has one of two outcomes.  Either [onLoginSuccess]
    is called: then a login request was resolved, its token is in the
    storage, the typed user name is the current one and no error is shown.
    Or it is not called: then the session is exactly as before and a
    non-empty error message is shown. *)
Theorem login_form_submit_outcome (w : world) (st : Login.state)
    (registered : reply unit) (logged : reply login_data) :
  let m := Login.handleSubmit registered logged st in
  let st' := (eval m w).1 in
  Login.loading st' = false
  /\ Login.formData st' = Login.formData st
  /\ Login.isLogin st' = Login.isLogin st
  /\ alerts (exec m w) = alerts w
  /\ ((eval m w).2 = true ->
        Login.error st' = ""
        /\ currentUsername (exec m w) = Some (Login.username (Login.formData st))
        /\ exists tok, logged = Resolved (LoginData tok)
                       /\ localStorage (exec m w) !! "authToken" = Some tok)
  /\ ((eval m w).2 = false ->
        session (exec m w) = session w /\ Login.error st' ≠ "").
Proof.
  destruct st as [mode [un em pw pw2] err0 ld].
  unfold Login.handleSubmit. cbn [Login.isLogin Login.formData Login.setError
    Login.setLoading Login.username Login.password Login.password2 Login.email
    Login.error Login.loading].
  destruct mode.
  - destruct logged as [[tok] | err]; run.
    + repeat split; try done. exists tok. split; [done|].
      rewrite lookup_insert_ne by done. apply lookup_insert_eq.
    + repeat split; try done. by apply string_or_nonempty.
  - destruct (String.eqb pw pw2); cbn; [|by repeat split].
    destruct registered as [u | rerr]; run.
    + destruct logged as [[tok] | err]; cbn.
      * repeat split; try done. exists tok. split; [done|].
        rewrite lookup_insert_ne by done. apply lookup_insert_eq.
      * repeat split; done.
    + repeat split; try done. by apply string_or_nonempty.
Qed.

Lemma login_form_submit_outcome_witness :
  let st := Login.State true (Login.Form "alice" "" "secret" "") "" false in
  let m := Login.handleSubmit (Resolved tt)
             (Rejected (AxiosError (Some (JObj [("non_field_errors", JArr [])])) "401"))
             st in
  session (exec m Sample.guest) = session Sample.guest
  /\ Login.error (eval m Sample.guest).1 ≠ "".
Proof.
  intros st m.
  destruct (login_form_submit_outcome Sample.guest st (Resolved tt)
              (Rejected (AxiosError (Some (JObj [("non_field_errors", JArr [])])) "401")))
    as (_ & _ & _ & _ & _ & Hfail).
  apply Hfail. reflexivity.
Defined.

(** ** utils/theme.js *)

Lemma getCurrentTheme_spec (d : bool) (w : world) :
  themeService.getCurrentTheme d w
  = (match localStorage w !! "theme" with
     | Some s =>
         if str_truthy s
         then (if bool_decide (s = "dark")
               then themeService.darkTheme else themeService.lightTheme)
         else (if d then themeService.darkTheme else themeService.lightTheme)
     | None => if d then themeService.darkTheme else themeService.lightTheme
     end, w).
Proof.
  unfold themeService.getCurrentTheme. run.
  destruct (localStorage w !! "theme") as [s|]; cbn; [|done].
  destruct (str_truthy s); [|done].
  destruct (decide (s = "dark")) as [-> | Hs]; [done|].
  rewrite !bool_decide_eq_false_2; [done..|congruence].
Qed.

Lemma getCurrentTheme_stored (d : bool) (w : world) (t : themeService.theme) :
  localStorage w !! "theme" = Some (themeService.name t) ->
  eval (themeService.getCurrentTheme d) w = t.
Proof.
  intros H. unfold eval. rewrite getCurrentTheme_spec, H. by destruct t.
Qed.

Lemma toggleTheme_effect (w : world) (prefersDark : bool) :
  let current := eval (themeService.getCurrentTheme prefersDark) w in
  let new := eval (themeService.toggleTheme prefersDark) w in
  let w' := exec (themeService.toggleTheme prefersDark) w in
  new ≠ current
  /\ localStorage w' = <["theme" := themeService.name new]> (localStorage w)
  /\ (forall d, eval (themeService.getCurrentTheme d) w' = new)
  /\ (forall d, eval (themeService.isDarkMode d) w'
                = bool_decide (new = themeService.darkTheme))
  /\ (forall d, eval (themeService.toggleTheme d) w' = current)
  /\ eval authService.isAuthenticated w' = eval authService.isAuthenticated w
  /\ eval authService.isGuest w' = eval authService.isGuest w
  /\ eval authService.getUsername w' = eval authService.getUsername w
  /\ network w' = network w
  /\ alerts w' = alerts w.
Proof.
  intros current new w'.
  assert (Hnew : themeService.toggleTheme prefersDark w
                 = (match current with
                    | themeService.darkTheme => themeService.lightTheme
                    | themeService.lightTheme => themeService.darkTheme
                    end,
                    World (guestMode w) (currentUsername w)
                      (<["theme" := match current with
                                    | themeService.darkTheme => "light"
                                    | themeService.lightTheme => "dark"
                                    end]> (localStorage w))
                      (network w) (alerts w))).
  { subst current. unfold eval, themeService.toggleTheme, mbind, M_bind.
    pose proof (getCurrentTheme_spec prefersDark w) as E.
    destruct (themeService.getCurrentTheme prefersDark w) as [t w0].
    injection E as _ ->. cbn [fst]. destruct t; reflexivity. }
  assert (Hst : localStorage w' !! "theme" = Some (themeService.name new)).
  { subst w' new. unfold exec, eval. rewrite Hnew. cbn.
    rewrite lookup_insert_eq. by destruct current. }
  split; [|split; [|split; [|split; [|split]]]].
  - subst new. unfold eval. rewrite Hnew. cbn. by destruct current.
  - subst w' new. unfold exec, eval. rewrite Hnew. cbn. by destruct current.
  - intros d. by apply getCurrentTheme_stored.
  - intros d. unfold eval, themeService.isDarkMode. run. rewrite Hst.
    by destruct new.
  - intros d. unfold eval, themeService.toggleTheme, mbind, M_bind.
    rewrite getCurrentTheme_spec, Hst.
    subst new. unfold eval. rewrite Hnew. cbn. by destruct current.
  - subst w'. unfold exec. rewrite Hnew. cbn.
    rewrite !isAuthenticated_spec, !isGuest_spec. cbn.
    rewrite lookup_insert_ne by done.
    repeat split; try done.
    run. by rewrite lookup_insert_ne.
Qed.

(** X8. Toggling the theme returns the theme opposite to the current one
    and stores its name.  From then on the stored choice decides: the
    current theme and [isDarkMode()] are those of the new theme whatever
    the system prefers, and a second toggle gives back the theme that was
    current at first.  The credentials, the module variables, the requests
    and the alerts are not touched. *)
Theorem toggleTheme_flips_and_persists (w : world) (prefersDark : bool) :
  let current := eval (themeService.getCurrentTheme prefersDark) w in
  let new := eval (themeService.toggleTheme prefersDark) w in
  let w' := exec (themeService.toggleTheme prefersDark) w in
  new ≠ current
  /\ localStorage w' = <["theme" := themeService.name new]> (localStorage w)
  /\ (forall d, eval (themeService.getCurrentTheme d) w' = new)
  /\ (forall d, eval (themeService.isDarkMode d) w'
                = bool_decide (new = themeService.darkTheme))
  /\ (forall d, eval (themeService.toggleTheme d) w' = current)
  /\ eval authService.isAuthenticated w' = eval authService.isAuthenticated w
  /\ eval authService.isGuest w' = eval authService.isGuest w
  /\ eval authService.getUsername w' = eval authService.getUsername w
  /\ network w' = network w
  /\ alerts w' = alerts w.
Proof. exact (toggleTheme_effect w prefersDark). Qed.

Lemma isDarkMode_agrees (w : world) (prefersDark : bool) :
  eval (themeService.isDarkMode prefersDark) w
  = bool_decide (eval (themeService.getCurrentTheme prefersDark) w
                 = themeService.darkTheme).
Proof.
  unfold eval, themeService.isDarkMode. rewrite getCurrentTheme_spec. run.
  destruct (localStorage w !! "theme") as [s|]; cbn.
  - destruct (str_truthy s); cbn.
    + destruct (decide (s = "dark")) as [-> | Hs]; [done|].
      rewrite (bool_decide_eq_false_2 (Some s = Some "dark")) by congruence.
      by rewrite (bool_decide_eq_false_2 (s = "dark")).
    + by destruct prefersDark.
  - by destruct prefersDark.
Qed.

(** X9. [isDarkMode()] always agrees with the current theme.  A stored
    choice "dark" gives the dark theme, any other non-empty stored string
    gives the light theme, and an empty stored string counts as no choice:
    the system preference decides, as when nothing is stored. *)
Theorem stored_theme_choice (w : world) (prefersDark : bool) :
  eval (themeService.isDarkMode prefersDark) w
  = bool_decide (eval (themeService.getCurrentTheme prefersDark) w
                 = themeService.darkTheme)
  /\ eval (themeService.getCurrentTheme prefersDark)
          (exec (themeService.setTheme "dark") w) = themeService.darkTheme
  /\ (forall themeName, themeName ≠ "" -> themeName ≠ "dark" ->
        eval (themeService.getCurrentTheme prefersDark)
             (exec (themeService.setTheme themeName) w) = themeService.lightTheme)
  /\ eval (themeService.getCurrentTheme prefersDark)
          (exec (themeService.setTheme "") w)
     = (if prefersDark then themeService.darkTheme else themeService.lightTheme)
  /\ (localStorage w !! "theme" = None ->
        eval (themeService.getCurrentTheme prefersDark) w
        = (if prefersDark then themeService.darkTheme else themeService.lightTheme)).
Proof.
  split; [|split; [|split; [|split]]].
  - apply isDarkMode_agrees.
  - unfold eval. rewrite getCurrentTheme_spec. run.
    by rewrite lookup_insert_eq.
  - intros n Hn Hd. unfold eval. rewrite getCurrentTheme_spec. run.
    rewrite lookup_insert_eq, (str_truthy_ne _ Hn).
    by rewrite bool_decide_eq_false_2.
  - unfold eval. rewrite getCurrentTheme_spec. run.
    by rewrite lookup_insert_eq.
  - intros Hnone. unfold eval. by rewrite getCurrentTheme_spec, Hnone.
Qed.

Lemma stored_theme_choice_witness :
  eval (themeService.getCurrentTheme true)
       (exec (themeService.setTheme "solarized") (page_load ∅))
  = themeService.lightTheme.
Proof.
  destruct (stored_theme_choice (page_load ∅) true) as (_ & _ & Hother & _).
  apply Hother; discriminate.
Defined.

Section WriteEntries.
Context (key : string -> string).

Lemma write_entries_other (l : list (string * string))
    (s : gmap string string) (p : string) :
  p ∉ map (fun e => key e.1) l -> foldl (fun st e => <[key e.1 := e.2]> st) s l !! p = s !! p.
Proof.
  revert s. induction l as [|e l IH]; intros s Hp; [done|].
  cbn in *. apply not_elem_of_cons in Hp as [Hne Hp].
  rewrite IH by done. cbn beta. by rewrite lookup_insert_ne.
Qed.

Lemma write_entries_same (l : list (string * string))
    (s s' : gmap string string) (p : string) :
  p ∈ map (fun e => key e.1) l -> foldl (fun st e => <[key e.1 := e.2]> st) s l !! p = foldl (fun st e => <[key e.1 := e.2]> st) s' l !! p.
Proof.
  revert s s'. induction l as [|e l IH]; intros s s' Hp.
  { by apply elem_of_nil in Hp. }
  cbn in *.
  destruct (decide (p ∈ map (fun e => key e.1) l)) as [Hin | Hout].
  - by apply IH.
  - apply elem_of_cons in Hp as [-> | Hp]; [|done].
    rewrite !write_entries_other by done.
    cbn beta. by rewrite !lookup_insert_eq.
Qed.

Lemma write_entries_value (l : list (string * string))
    (s : gmap string string) (k v : string) :
  NoDup (map (fun e => key e.1) l) -> (k, v) ∈ l ->
  foldl (fun st e => <[key e.1 := e.2]> st) s l !! key k = Some v.
Proof.
  revert s. induction l as [|e l IH]; intros s Hnd Hin.
  { by apply elem_of_nil in Hin. }
  cbn in *. apply NoDup_cons in Hnd as [Hfresh Hnd].
  apply elem_of_cons in Hin as [<- | Hin].
  - rewrite write_entries_other by done.
    cbn beta. apply lookup_insert_eq.
  - by apply IH.
Qed.
End WriteEntries.

(** X10. Applying a theme writes each of its colours to the custom
    property "--color-<key>" of the document root and touches no other
    property.  Applying a theme over another one leaves no trace of the
    first: the style is the one obtained by applying the second alone. *)
Theorem applyTheme_overwrites_the_palette
    (t : themeService.theme) (style : gmap string string) :
  (forall k v, (k, v) ∈ themeService.colors t ->
     applyTheme t style !! ("--color-" +:+ k) = Some v)
  /\ (forall p, p ∉ properties_of t -> applyTheme t style !! p = style !! p)
  /\ (forall t0, applyTheme t (applyTheme t0 style) = applyTheme t style).
Proof.
  split; [|split].
  - intros k v Hin.
    apply (write_entries_value (fun k => "--color-" +:+ k)); [|done].
    destruct t; by apply (bool_decide_unpack _).
  - intros p Hp. by apply (write_entries_other (fun k => "--color-" +:+ k)).
  - intros t0. apply map_eq. intros p. unfold applyTheme.
    destruct (decide (p ∈ properties_of t)) as [Hin | Hout].
    + by apply (write_entries_same (fun k => "--color-" +:+ k)).
    + rewrite !(write_entries_other (fun k => "--color-" +:+ k)); try done.
      by destruct t, t0.
Qed.

(** X11. The app's theme button keeps its three places in step: after a
    click the [isDarkMode] flag of the app is what [isDarkMode()] answers
    from then on, it is the opposite of what it answered before, the
    document carries the palette of the theme now current, and the login
    flag of the app and the session are as before. *)
Theorem theme_button_keeps_flag_storage_and_palette_in_step
    (w : world) (prefersDark : bool) (app : App.state)
    (style : gmap string string) :
  let m := App.handleThemeToggle prefersDark app style in
  let app' := (eval m w).1 in
  let style' := (eval m w).2 in
  (forall d, eval (themeService.isDarkMode d) (exec m w) = App.isDarkMode app')
  /\ App.isDarkMode app' = negb (eval (themeService.isDarkMode prefersDark) w)
  /\ (forall d, style' = applyTheme (eval (themeService.getCurrentTheme d) (exec m w)) style)
  /\ App.isAuthenticated app' = App.isAuthenticated app
  /\ eval authService.isAuthenticated (exec m w) = eval authService.isAuthenticated w
  /\ network (exec m w) = network w.
Proof.
  intros m app' style'.
  destruct (toggleTheme_effect w prefersDark)
    as (Hne & _ & Hcur & Hdark & _ & Hauth & _ & _ & Hnet & _).
  pose proof (isDarkMode_agrees w prefersDark) as Hagree.
  assert (Hm : m w = (App.State (App.isAuthenticated app)
                        (bool_decide (themeService.name
                           (eval (themeService.toggleTheme prefersDark) w) = "dark")),
                      applyTheme (eval (themeService.toggleTheme prefersDark) w) style,
                      exec (themeService.toggleTheme prefersDark) w)).
  { subst m. unfold App.handleThemeToggle, eval, exec, mbind, M_bind, mret, M_ret.
    by destruct (themeService.toggleTheme prefersDark w). }
  subst app' style'. unfold eval, exec in *. rewrite Hm. cbn [fst snd].
  cbn [App.isDarkMode App.isAuthenticated].
  split; [|split; [|split; [|split; [|split]]]]; try done.
  - intros d. rewrite Hdark.
    by destruct ((themeService.toggleTheme prefersDark w).1).
  - rewrite Hagree.
    destruct ((themeService.toggleTheme prefersDark w).1),
             ((themeService.getCurrentTheme prefersDark w).1); done.
  - intros d. by rewrite Hcur.
Qed.

(** ** services/api.js *)

Ltac one_request := run_more; eexists; split; [reflexivity|split; reflexivity].

(** Every function of the gateway sends exactly one request, to its
    endpoint, returns the backend's reply as it is (nothing is retried
    after a rejection) and changes neither the storage nor the module
    variables nor the alerts. *)
Lemma gateway_calls_send_exactly_one_request (w : world) :
  (forall r u p,
     sends (authAPI.login r u p) r w POST "http://127.0.0.1:8000/api/auth/login/")
  /\ (forall r u e p p2,
        sends (authAPI.register r u e p p2) r w POST
              "http://127.0.0.1:8000/api/auth/register/")
  /\ (forall r page size ordering,
        sends (postAPI.getAllPosts r page size ordering) r w GET
              "http://127.0.0.1:8000/api/posts/")
  /\ (forall r id,
        sends (postAPI.getPost r id) r w GET
              ("http://127.0.0.1:8000/api/posts/" +:+ to_string id +:+ "/"))
  /\ (forall r data,
        sends (postAPI.createPost r data) r w POST "http://127.0.0.1:8000/api/posts/")
  /\ (forall r id data,
        sends (postAPI.updatePost r id data) r w PUT
              ("http://127.0.0.1:8000/api/posts/" +:+ to_string id +:+ "/"))
  /\ (forall r id,
        sends (postAPI.deletePost r id) r w DELETE
              ("http://127.0.0.1:8000/api/posts/" +:+ to_string id +:+ "/"))
  /\ (forall r postId,
        sends (commentAPI.getComments r postId) r w GET
              "http://127.0.0.1:8000/api/comments/")
  /\ (forall r postId content,
        sends (commentAPI.createComment r postId content) r w POST
              "http://127.0.0.1:8000/api/comments/")
  /\ (forall r,
        sends (topicAPI.getAllTopics r) r w GET "http://127.0.0.1:8000/api/topics/")
  /\ (forall r id,
        sends (topicAPI.getTopic r id) r w GET
              ("http://127.0.0.1:8000/api/topics/" +:+ to_string id +:+ "/"))
  /\ (forall r data,
        sends (topicAPI.createTopic r data) r w POST
              "http://127.0.0.1:8000/api/topics/")
  /\ (forall r postId,
        sends (reactionAPI.likePost r postId) r w POST
              "http://127.0.0.1:8000/api/reactions/")
  /\ (forall r postId,
        sends (reactionAPI.unlikePost r postId) r w DELETE
              "http://127.0.0.1:8000/api/reactions/")
  /\ (forall r postId,
        sends (reactionAPI.toggleLike r postId) r w POST
              ("http://127.0.0.1:8000/api/posts/" +:+ to_string postId +:+ "/like/")).
Proof.
  unfold sends. repeat split; intros; one_request.
Qed.

(** X12. Which requests carry the credential, and which credential.
    Login, registration and the reads of one post, of the comments of a
    post and of topics go out without any header, even when a token is
    stored.  Creating, updating and deleting posts, creating comments and
    topics, and the two reaction calls carry exactly one header,
    [Authorization], reading "Token " followed by the string stored under
    [authToken], and "Token null" when nothing is stored.  Hence, from any
    world: after a login that the backend answered with the token [t] the
    writes carry "Token t", whatever was stored before; after a rejected
    login they carry what they carried before; after a logout and after
    entering guest mode they carry "Token null". *)
Theorem credential_goes_with_writes_only (w : world) :
  let bare := Some [] in
  let stored_credential (w : world) :=
    match localStorage w !! "authToken" with
    | Some stored => "Token " +:+ stored
    | None => "Token null"
    end in
  let writes_carry (w : world) (value : string) :=
    (forall r data,
       last_headers (exec (postAPI.createPost r data) w)
       = Some [("Authorization", value)])
    /\ (forall r id data,
          last_headers (exec (postAPI.updatePost r id data) w)
          = Some [("Authorization", value)])
    /\ (forall r id,
          last_headers (exec (postAPI.deletePost r id) w)
          = Some [("Authorization", value)])
    /\ (forall r postId content,
          last_headers (exec (commentAPI.createComment r postId content) w)
          = Some [("Authorization", value)])
    /\ (forall r data,
          last_headers (exec (topicAPI.createTopic r data) w)
          = Some [("Authorization", value)])
    /\ (forall r postId,
          last_headers (exec (reactionAPI.likePost r postId) w)
          = Some [("Authorization", value)])
    /\ (forall r postId,
          last_headers (exec (reactionAPI.unlikePost r postId) w)
          = Some [("Authorization", value)]) in
  (forall r u p, last_headers (exec (authAPI.login r u p) w) = bare)
  /\ (forall r u e p p2, last_headers (exec (authAPI.register r u e p p2) w) = bare)
  /\ (forall r id, last_headers (exec (postAPI.getPost r id) w) = bare)
  /\ (forall r postId, last_headers (exec (commentAPI.getComments r postId) w) = bare)
  /\ (forall r, last_headers (exec (topicAPI.getAllTopics r) w) = bare)
  /\ (forall r id, last_headers (exec (topicAPI.getTopic r id) w) = bare)
  /\ writes_carry w (stored_credential w)
  /\ (forall d u p,
        writes_carry (exec (authService.login (Resolved d) u p) w)
                     ("Token " +:+ token d))
  /\ (forall err u p,
        writes_carry (exec (authService.login (Rejected err) u p) w)
                     (stored_credential w))
  /\ writes_carry (exec authService.logout w) "Token null"
  /\ writes_carry (exec authService.loginAsGuest w) "Token null".
Proof.
  intros bare stored_credential writes_carry.
  assert (Hcarry : forall w' value,
             stored_credential w' = value -> writes_carry w' value).
  { intros w' value <-. subst writes_carry stored_credential. cbn beta.
    unfold last_headers.
    repeat split; intros; run_more; rewrite last_snoc; cbn;
      by destruct (localStorage w' !! "authToken"). }
  split; [|split; [|split; [|split; [|split; [|split]]]]];
    try (intros; unfold last_headers; run_more; by rewrite last_snoc).
  split; [|split; [|split; [|split]]].
  - by apply Hcarry.
  - intros d u p. apply Hcarry. subst stored_credential. cbn beta.
    session_ops. by credentials_lookup.
  - intros err u p. apply Hcarry. subst stored_credential. cbn beta.
    by session_ops.
  - apply Hcarry. subst stored_credential. cbn beta.
    session_ops. by credentials_lookup.
  - apply Hcarry. subst stored_credential. cbn beta.
    session_ops. by credentials_lookup.
Qed.

Lemma credential_goes_with_writes_only_witness :
  last_headers
    (exec (commentAPI.createComment (Resolved tt) (JNum 1) "First!")
          (exec (authService.login (Resolved (LoginData "9944b09199c6")) "alice" "secret")
                (page_load {["authToken" := "0ld"]})))
  = Some [("Authorization", "Token 9944b09199c6")]
  /\ last_headers
       (exec (commentAPI.createComment (Resolved tt) (JNum 1) "First!")
             (exec authService.logout
                   (page_load {["authToken" := "9944b09199c6"]})))
     = Some [("Authorization", "Token null")]
  /\ last_headers
       (exec (commentAPI.getComments (Resolved NoComments) (JNum 1))
             (page_load {["authToken" := "9944b09199c6"]}))
     = Some [].
Proof.
  split; [|split].
  - destruct (credential_goes_with_writes_only (page_load {["authToken" := "0ld"]}))
      as (_ & _ & _ & _ & _ & _ & _ & Hlogin & _).
    destruct (Hlogin (LoginData "9944b09199c6") "alice" "secret")
      as (_ & _ & _ & Hcomment & _).
    exact (Hcomment (Resolved tt) (JNum 1) "First!").
  - destruct (credential_goes_with_writes_only
                (page_load {["authToken" := "9944b09199c6"]}))
      as (_ & _ & _ & _ & _ & _ & _ & _ & _ & Hlogout & _).
    destruct Hlogout as (_ & _ & _ & Hcomment & _).
    exact (Hcomment (Resolved tt) (JNum 1) "First!").
  - destruct (credential_goes_with_writes_only
                (page_load {["authToken" := "9944b09199c6"]}))
      as (_ & _ & _ & Hread & _).
    exact (Hread (Resolved NoComments) (JNum 1)).
Defined.

(** ** pages/Home.js *)



(** X14. Two answered like toggles on the feed, by a logged-in user.
    A handler run from click to reply, with nothing else setting the state
    in between, is the reply step of its own render.  When the second
    click comes in the render that follows the first reply, the toggles
    compose: for one post only the second answer shows, and for two
    different posts the order does not matter.  When both clicks come in
    the same render and both replies are still out, the reply that arrives
    last replaces the list by that render's list with its own post
    patched, so the patch of the earlier reply is gone and the outcome
    depends on the order of the replies; for two different posts it is the
    composed list only if the earlier reply changed no post. *)
Theorem like_toggles_in_sequence_and_in_flight
    (st : Home.state) (r1 r2 : like_data) (id1 id2 : Z) :
  let answered r id (s : Home.state) := Home.likeResolved s r id s in
  (forall w,
     eval (Home.handleLike false (Resolved r1) id1 st) w = answered r1 id1 st)
  /\ answered r2 id1 (answered r1 id1 st) = answered r2 id1 st
  /\ (id1 ≠ id2 ->
      answered r2 id2 (answered r1 id1 st) = answered r1 id1 (answered r2 id2 st))
  /\ Home.likeResolved st r2 id2 (Home.likeResolved st r1 id1 st)
     = answered r2 id2 st
  /\ Home.likeResolved st r1 id1 (Home.likeResolved st r2 id2 st)
     = answered r1 id1 st
  /\ (id1 ≠ id2 ->
      (Home.likeResolved st r2 id2 (Home.likeResolved st r1 id1 st)
       = answered r2 id2 (answered r1 id1 st)
       <-> forall p, p ∈ Home.posts st -> Post.id p = id1 ->
                     Post.with_like p (liked r1) (likes_count r1) = p)).
Proof.
  intros answered. subst answered. cbn beta.
  unfold Home.likeResolved, Home.setPosts. cbn [Home.posts Home.activeTab
    Home.loading Home.error].
  split; [reflexivity|]. split; [|split; [|split; [|split]]].
  - f_equal. rewrite map_map. apply map_ext. intros p.
    destruct (Z.eqb_spec (Post.id p) id1) as [Heq | Hne]; cbn.
    + by rewrite Heq, Z.eqb_refl.
    + by destruct (Z.eqb_spec (Post.id p) id1).
  - intros Hid. f_equal. rewrite !map_map. apply map_ext. intros p.
    destruct (Z.eqb_spec (Post.id p) id1) as [H1 | H1];
      destruct (Z.eqb_spec (Post.id p) id2) as [H2 | H2]; cbn.
    + congruence.
    + destruct (Z.eqb_spec (Post.id p) id2); [congruence|].
      by destruct (Z.eqb_spec (Post.id p) id1).
    + destruct (Z.eqb_spec (Post.id p) id1); [congruence|].
      by destruct (Z.eqb_spec (Post.id p) id2).
    + destruct (Z.eqb_spec (Post.id p) id1); [congruence|].
      by destruct (Z.eqb_spec (Post.id p) id2).
  - reflexivity.
  - reflexivity.
  - intros Hid. rewrite map_map. split.
    + intros Heq p Hp Hp1. injection Heq as Heq.
      induction (Home.posts st) as [|q l IH]; [by apply elem_of_nil in Hp|].
      cbn [map] in Heq. injection Heq as Hq Hl.
      apply elem_of_cons in Hp as [-> | Hp]; [|by apply IH].
      revert Hq. rewrite Hp1, Z.eqb_refl. cbn. rewrite Hp1.
      destruct (Z.eqb_spec id1 id2); [done|]. by intros Hq.
    + intros Hsame. f_equal. apply map_ext_in. intros p Hp.
      apply list_elem_of_In in Hp.
      destruct (Z.eqb_spec (Post.id p) id1) as [H1 | H1]; [|done].
      by rewrite (Hsame p Hp H1).
Qed.

Lemma like_toggles_in_sequence_and_in_flight_witness :
  let first := LikeData true 6 in
  let second := LikeData false 2 in
  let patched p r := Post.with_like p (liked r) (likes_count r) in
  Home.posts (Home.likeResolved Sample.feed second 2
                (Home.likeResolved Sample.feed first 1 Sample.feed))
  = [Sample.budget; patched Sample.transit second]
  /\ Home.posts (Home.likeResolved Sample.feed first 1
                   (Home.likeResolved Sample.feed second 2 Sample.feed))
     = [patched Sample.budget first; Sample.transit]
  /\ (let s1 := Home.likeResolved Sample.feed first 1 Sample.feed in
      Home.posts (Home.likeResolved s1 second 2 s1))
     = [patched Sample.budget first; patched Sample.transit second]
  /\ Home.likeResolved Sample.feed second 2
       (Home.likeResolved Sample.feed first 1 Sample.feed)
     ≠ (let s1 := Home.likeResolved Sample.feed first 1 Sample.feed in
        Home.likeResolved s1 second 2 s1).
Proof.
  intros first second patched.
  destruct (like_toggles_in_sequence_and_in_flight Sample.feed first second 1 2)
    as (_ & _ & Hcommute & Hlast2 & Hlast1 & Hlost).
  split; [|split; [|split]].
  - by rewrite Hlast2.
  - by rewrite Hlast1.
  - reflexivity.
  - intros Heq. cbv zeta in Heq.
    assert (Hid : (1 : Z) ≠ 2) by discriminate.
    destruct (Hlost Hid) as [Hto _].
    assert (Hin : Sample.budget ∈ Home.posts Sample.feed) by (cbn; left).
    discriminate (Hto Heq Sample.budget Hin eq_refl).
Defined.

(** X15. A like toggle for an id that no post of the feed carries still
    sends its request, and the answer changes nothing in the feed. *)
Theorem like_of_absent_post_changes_nothing
    (w : world) (st : Home.state) (postId : Z) (r : like_data) :
  postId ∉ map Post.id (Home.posts st) ->
  let m := Home.handleLike false (Resolved r) postId st in
  eval m w = st
  /\ network (exec m w)
     = network w ++ [like_request (JNum postId) (localStorage w !! "authToken")].
Proof.
  intros Hout m. split; [|reflexivity].
  assert (Hmap : map (fun post => if Post.id post =? postId
                                  then Post.with_like post (liked r) (likes_count r)
                                  else post) (Home.posts st)
                 = Home.posts st).
  { induction (Home.posts st) as [|p ps IH]; [done|].
    cbn in Hout. apply not_elem_of_cons in Hout as [Hne Hout].
    cbn [map]. rewrite (IH Hout).
    destruct (Z.eqb_spec (Post.id p) postId); [congruence|done]. }
  change (eval m w) with
    (Home.setPosts (map (fun post => if Post.id post =? postId
                                     then Post.with_like post (liked r) (likes_count r)
                                     else post) (Home.posts st)) st).
  rewrite Hmap. by destruct st.
Qed.

Lemma like_of_absent_post_changes_nothing_witness :
  eval (Home.handleLike false (Resolved (LikeData true 1)) 7 Sample.feed) (page_load ∅)
  = Sample.feed.
Proof.
  apply (like_of_absent_post_changes_nothing (page_load ∅) Sample.feed 7 (LikeData true 1)).
  by apply (bool_decide_unpack _).
Defined.

(** X16. After a load of the feed the spinner is off and the tab is the
    same.  The error line is shown exactly when this load was rejected: a
    rejected load keeps the posts that were there and sets the message, a
    resolved one clears a message left by an earlier failure. *)
Theorem feed_error_follows_the_last_load
    (w : world) (st : Home.state) (r : reply posts_page) :
  let st' := eval (Home.fetchPosts r st) w in
  Home.loading st' = false
  /\ Home.activeTab st' = Home.activeTab st
  /\ (Home.error st' ≠ "" <-> exists err, r = Rejected err)
  /\ (forall err, r = Rejected err ->
        Home.posts st' = Home.posts st /\ Home.error st' = "Failed to load posts")
  /\ alerts (exec (Home.fetchPosts r st) w) = alerts w
  /\ session (exec (Home.fetchPosts r st) w) = session w.
Proof.
  intros st'. subst st'. unfold Home.fetchPosts. cbn.
  destruct (String.eqb (Home.activeTab st) "popular"), r as [d | err]; cbn.
  all: split; [reflexivity|]; split; [reflexivity|].
  all: split; [split; [intros H | intros [e He]]|].
  all: try done; eauto.
  all: split; [intros e He; try discriminate; done|done].
Qed.

(** ** pages/PostDetail.js *)

Lemma fetchPost_resolved (p : Post.t) (postId : string)
    (st : PostDetail.state) (w : world) :
  eval (PostDetail.fetchPost (Resolved p) postId st) w
  = PostDetail.State (Some p) false (PostDetail.error st).
Proof. reflexivity. Qed.

Lemma fetchPost_rejected (err : axios_error) (postId : string)
    (st : PostDetail.state) (w : world) :
  eval (PostDetail.fetchPost (Rejected err) postId st) w
  = PostDetail.State (PostDetail.post st) false "Failed to load post".
Proof. reflexivity. Qed.

(** X17. Loading a post always ends the loading view.  A first load shows
    the post when it resolves and "Failed to load post" when it is
    rejected.  The error is never cleared: once a load has failed, the
    error view stays up even after a later load (of another post, say) has
    resolved and its post is in the state, and no like toggle brings the
    post view back. *)
Theorem post_page_error_is_never_cleared (w : world) (postId : string) :
  (forall r st,
     PostDetail.render (eval (PostDetail.fetchPost r postId st) w)
     ≠ PostDetail.LoadingView)
  /\ (forall p,
        PostDetail.render
          (eval (PostDetail.fetchPost (Resolved p) postId PostDetail.initial) w)
        = PostDetail.PostView p)
  /\ (forall err,
        PostDetail.render
          (eval (PostDetail.fetchPost (Rejected err) postId PostDetail.initial) w)
        = PostDetail.ErrorView "Failed to load post")
  /\ (forall st, PostDetail.error st ≠ "" ->
        (forall r postId' w',
           let st' := eval (PostDetail.fetchPost r postId' st) w' in
           PostDetail.error st' ≠ ""
           /\ exists msg, PostDetail.render st' = PostDetail.ErrorView msg)
        /\ (forall isGuest r postId' p w',
              PostDetail.error
                (eval (PostDetail.handleLike isGuest r postId' p st) w') ≠ "")).
Proof.
  split; [|split; [|split]].
  - intros [p | err] st.
    + rewrite fetchPost_resolved. unfold PostDetail.render.
      cbn [PostDetail.loading PostDetail.post PostDetail.error].
      by destruct (str_truthy _).
    + rewrite fetchPost_rejected. unfold PostDetail.render.
      cbn [PostDetail.loading PostDetail.post PostDetail.error].
      by destruct (PostDetail.post st).
  - reflexivity.
  - reflexivity.
  - intros st Herr. split.
    + intros [p | err] postId' w' st'; subst st'.
      * rewrite fetchPost_resolved. split; [done|]. unfold PostDetail.render.
        cbn [PostDetail.loading PostDetail.post PostDetail.error].
        rewrite (str_truthy_ne _ Herr). eauto.
      * rewrite fetchPost_rejected. split; [done|]. unfold PostDetail.render.
        cbn [PostDetail.loading PostDetail.post PostDetail.error].
        destruct (PostDetail.post st); cbn; eauto.
    + intros [] [d | err] postId' p w'; exact Herr.
Qed.

Lemma post_page_error_is_never_cleared_witness :
  PostDetail.render
    (eval (PostDetail.fetchPost (Resolved Sample.transit) "2"
             (eval (PostDetail.fetchPost (Rejected (AxiosError None "Network Error")) "1"
                      PostDetail.initial)
                   (page_load ∅)))
          (page_load ∅))
  = PostDetail.ErrorView "Failed to load post".
Proof.
  destruct (post_page_error_is_never_cleared (page_load ∅) "1") as (_ & _ & _ & Hsticky).
  pose (st := eval (PostDetail.fetchPost (Rejected (AxiosError None "Network Error")) "1"
                      PostDetail.initial) (page_load ∅)).
  destruct (Hsticky st) as [Hload _]; [discriminate|].
  destruct (Hload (Resolved Sample.transit) "2" (page_load ∅)) as [_ [msg Hmsg]].
  subst st. rewrite Hmsg. f_equal.
  vm_compute in Hmsg. by injection Hmsg.
Defined.

(** ** components/Comments.js *)

Section DistinctDates.
Variable Date_parse : string -> option Z.

#[local] Instance strictly_newer_trans : Transitive (strictly_newer Date_parse).
Proof.
  intros x y z (tx & ty & Hx & Hy & Hxy) (ty' & tz & Hy' & Hz & Hyz).
  exists tx, tz. repeat split; try done.
  rewrite Hy in Hy'. injection Hy' as <-. lia.
Qed.

#[local] Instance strictly_older_trans :
  Transitive (flip (strictly_newer Date_parse)).
Proof. intros x y z Hxy Hyz. exact (strictly_newer_trans z y x Hyz Hxy). Qed.

#[local] Instance strictly_older_antisym :
  AntiSymm (=) (flip (strictly_newer Date_parse)).
Proof.
  intros x y (ty & tx & Hy & Hx & Hlt) (tx' & ty' & Hx' & Hy' & Hlt').
  rewrite Hx in Hx'. rewrite Hy in Hy'.
  injection Hx' as <-. injection Hy' as <-. lia.
Qed.

Lemma newest_order_is_strict (l : list Comment.t) :
  forallb (valid_date Date_parse) l = true ->
  NoDup (map (fun c => Date_parse (Comment.created_at c)) l) ->
  sorted_by (in_order (Comments.by_newest Date_parse)) l = true ->
  Sorted (strictly_newer Date_parse) l.
Proof.
  induction l as [|x l IH]; [constructor|].
  intros [Hx Hl]%andb_true_iff [Hfresh Hnd]%NoDup_cons Hs.
  destruct l as [|y l]; [by repeat constructor|].
  cbn [sorted_by] in Hs. apply andb_true_iff in Hs as [Hxy Hs].
  constructor; [by apply IH|]. constructor.
  pose proof Hl as [Hy _]%andb_true_iff.
  rewrite in_order_by_newest in Hxy by done.
  unfold newer_or_same in Hxy. unfold strictly_newer.
  destruct (Date_parse (Comment.created_at x)) as [tx|] eqn:Ex; [|done].
  destruct (Date_parse (Comment.created_at y)) as [ty|] eqn:Ey; [|done].
  exists tx, ty. repeat split; try done.
  apply Z.leb_le in Hxy.
  assert (tx ≠ ty); [|lia].
  intros ->. apply Hfresh. cbn. rewrite ?Ex, ?Ey. by left.
Qed.

Lemma oldest_order_is_strict (l : list Comment.t) :
  forallb (valid_date Date_parse) l = true ->
  NoDup (map (fun c => Date_parse (Comment.created_at c)) l) ->
  sorted_by (in_order (Comments.by_oldest Date_parse)) l = true ->
  Sorted (flip (strictly_newer Date_parse)) l.
Proof.
  induction l as [|x l IH]; [constructor|].
  intros [Hx Hl]%andb_true_iff [Hfresh Hnd]%NoDup_cons Hs.
  destruct l as [|y l]; [by repeat constructor|].
  cbn [sorted_by] in Hs. apply andb_true_iff in Hs as [Hxy Hs].
  constructor; [by apply IH|]. constructor.
  pose proof Hl as [Hy _]%andb_true_iff.
  rewrite in_order_by_oldest in Hxy by done.
  unfold older_or_same, newer_or_same in Hxy. unfold flip, strictly_newer.
  destruct (Date_parse (Comment.created_at y)) as [ty|] eqn:Ey; [|done].
  destruct (Date_parse (Comment.created_at x)) as [tx|] eqn:Ex; [|done].
  exists ty, tx. repeat split; try done.
  apply Z.leb_le in Hxy.
  assert (tx ≠ ty); [|lia].
  intros ->. apply Hfresh. cbn. rewrite ?Ex, ?Ey. by left.
Qed.

(** X18. When every comment has a valid date and no two comments have
    the same date, the "oldest" view is the "newest" view read backwards. *)
Theorem oldest_view_is_newest_view_reversed (st : Comments.state) :
  forallb (valid_date Date_parse) (Comments.comments st) = true ->
  NoDup (map (fun c => Date_parse (Comment.created_at c)) (Comments.comments st)) ->
  Comments.getSortedComments Date_parse (Comments.setSortBy "oldest" st)
  = rev (Comments.getSortedComments Date_parse (Comments.setSortBy "newest" st)).
Proof.
  intros Hvalid Hnd. rewrite !getSortedComments_mode. cbn.
  set (l := Comments.comments st) in *.
  set (A := Array_sort (Comments.by_newest Date_parse) l).
  set (B := Array_sort (Comments.by_oldest Date_parse) l).
  assert (HA : A ≡ₚ l) by apply Array_sort_perm.
  assert (HB : B ≡ₚ l) by apply Array_sort_perm.
  rewrite rev_alt. change (rev_append A []) with (reverse A).
  apply (Sorted_unique (flip (strictly_newer Date_parse))).
  - apply oldest_order_is_strict.
    + by eapply forallb_perm.
    + change (NoDup ((fun c => Date_parse (Comment.created_at c)) <$> B)). by rewrite HB.
    + apply Array_sort_sorted, by_oldest_asym.
  - apply Sorted_reverse, newest_order_is_strict.
    + by eapply forallb_perm.
    + change (NoDup ((fun c => Date_parse (Comment.created_at c)) <$> A)). by rewrite HA.
    + apply Array_sort_sorted, by_newest_asym.
  - by rewrite reverse_Permutation, HA, HB.
Qed.
End DistinctDates.

Lemma oldest_view_is_newest_view_reversed_witness :
  Comments.getSortedComments Sample.Date_parse
    (Comments.setSortBy "oldest" Sample.thread)
  = rev (Comments.getSortedComments Sample.Date_parse
           (Comments.setSortBy "newest" Sample.thread)).
Proof.
  apply oldest_view_is_newest_view_reversed.
  - reflexivity.
  - by apply (bool_decide_unpack _).
Defined.

(** ** pages/CreatePost.js *)

Lemma filter_index_delete {A : Type} (l : list A) (k index : nat) :
  CreatePost.filter_index (fun i => negb (i =? index)%nat) k l
  = if (index <? k)%nat then l else delete (index - k)%nat l.
Proof.
  revert k. induction l as [|x l IH]; intros k; cbn [CreatePost.filter_index].
  { by destruct (index <? k)%nat. }
  rewrite IH.
  destruct (Nat.eqb_spec k index) as [-> | Hne]; cbn [negb].
  - destruct (Nat.ltb_spec index (S index)); [|lia].
    destruct (Nat.ltb_spec index index); [lia|].
    by rewrite Nat.sub_diag.
  - destruct (Nat.ltb_spec index k), (Nat.ltb_spec index (S k));
      try lia; [reflexivity|].
    replace (index - k)%nat with (S (index - S k)) by lia. reflexivity.
Qed.

(** X19. Removing an attachment takes the file at that position out of
    the list and nothing else: the files before and after it keep their
    order, an index past the end changes nothing, and removing the
    position of a file just attached gives back the list from before.  The
    rest of the form is untouched. *)
Theorem removing_an_attachment_drops_that_file_only
    (st : CreatePost.state) (index : nat) :
  let files := CreatePost.attachments (CreatePost.formData st) in
  let files' := CreatePost.attachments
                  (CreatePost.formData (CreatePost.removeAttachment index st)) in
  files' = delete index files
  /\ (forall j, (j < index)%nat -> files' !! j = files !! j)
  /\ (forall j, (index <= j)%nat -> files' !! j = files !! S j)
  /\ ((index < length files)%nat -> S (length files') = length files)
  /\ ((length files <= index)%nat -> CreatePost.removeAttachment index st = st)
  /\ (forall file,
        CreatePost.removeAttachment (length files)
          (CreatePost.handleFileAttach [file] st) = st)
  /\ (let f := CreatePost.formData st in
      let f' := CreatePost.formData (CreatePost.removeAttachment index st) in
      CreatePost.title f' = CreatePost.title f
      /\ CreatePost.content f' = CreatePost.content f
      /\ CreatePost.topic f' = CreatePost.topic f
      /\ CreatePost.tags f' = CreatePost.tags f
      /\ CreatePost.charCount (CreatePost.removeAttachment index st)
         = CreatePost.charCount st).
Proof.
  intros files files'.
  assert (Hdel : files' = delete index files).
  { subst files files'. cbn. rewrite filter_index_delete. cbn.
    by rewrite Nat.sub_0_r. }
  split; [done|]. rewrite Hdel.
  split; [intros j Hj; by apply list_lookup_delete_lt|].
  split; [intros j Hj; by apply list_lookup_delete_ge|].
  split.
  { intros Hlt. rewrite length_delete by (by apply lookup_lt_is_Some).
    lia. }
  split.
  { intros Hge. destruct st as [[t c tp tg fs] ts e ld n nt]. cbn in *.
    unfold CreatePost.removeAttachment, CreatePost.setFormData. cbn.
    rewrite filter_index_delete. cbn. rewrite Nat.sub_0_r.
    rewrite delete_take_drop, take_ge, drop_ge by lia.
    by rewrite app_nil_r. }
  split; [|done].
  intros file. destruct st as [[t c tp tg fs] ts e ld n nt]. cbn in *.
  unfold CreatePost.removeAttachment, CreatePost.handleFileAttach,
    CreatePost.setFormData. cbn.
  rewrite filter_index_delete. cbn. rewrite Nat.sub_0_r.
  subst files. by rewrite delete_middle, app_nil_r.
Qed.

Lemma removing_an_attachment_drops_that_file_only_witness :
  let st := CreatePost.handleFileAttach
              [CreatePost.File "a.png"; CreatePost.File "b.pdf"; CreatePost.File "c.mp4"]
              (CreatePost.initial None) in
  S (length (CreatePost.attachments
               (CreatePost.formData (CreatePost.removeAttachment 1 st))))
  = length (CreatePost.attachments (CreatePost.formData st))
  /\ CreatePost.removeAttachment 3 st = st.
Proof.
  intros st.
  destruct (removing_an_attachment_drops_that_file_only st 1)
    as (_ & _ & _ & Hlen & _).
  destruct (removing_an_attachment_drops_that_file_only st 3)
    as (_ & _ & _ & _ & Hout & _).
  split; [apply Hlen | apply Hout]; cbn; lia.
Defined.

(** X20. The character counter is right and the limit holds: in every
    state that the form reaches from its first render through its inputs,
    [charCount] is the length of the content and at most 5000; a text
    longer than 5000 is not taken at all (the state stays as it is, the
    text is not cut); and a submission leaves form and counter alone. *)
Theorem content_counter_is_exact_and_bounded
    (topicId : option string) (events : list CreatePost.event) :
  let st := foldl (fun s e => CreatePost.handle e s)
                  (CreatePost.initial topicId) events in
  CreatePost.charCount st
  = utf16_length (CreatePost.content (CreatePost.formData st))
  /\ (CreatePost.charCount st <= CreatePost.MAX_CHARS)%nat
  /\ (forall text, (CreatePost.MAX_CHARS < utf16_length text)%nat ->
        CreatePost.handleContentChange text st = st)
  /\ (forall topicCreated postCreated w,
        let st' := (eval (CreatePost.handleSubmit topicCreated postCreated st) w).1 in
        CreatePost.formData st' = CreatePost.formData st
        /\ CreatePost.charCount st' = CreatePost.charCount st).
Proof.
  intros st.
  assert (Hinv : CreatePost.charCount st
                 = utf16_length (CreatePost.content (CreatePost.formData st))
                 /\ (CreatePost.charCount st <= CreatePost.MAX_CHARS)%nat).
  { subst st. induction events as [|e events IH] using rev_ind.
    - split; [reflexivity|]. cbn. unfold CreatePost.MAX_CHARS. lia.
    - rewrite foldl_snoc.
      set (s := foldl _ _ events) in *. destruct IH as [IH1 IH2].
      destruct e; cbn; try done.
      unfold CreatePost.handleContentChange.
      destruct (Nat.leb_spec (utf16_length text) CreatePost.MAX_CHARS); [|done].
      cbn. done. }
  destruct Hinv as [H1 H2]. split; [done|]. split; [done|]. split.
  - intros text Hlong. unfold CreatePost.handleContentChange.
    by rewrite (proj2 (Nat.leb_gt _ _)) by lia.
  - intros topicCreated postCreated w. unfold CreatePost.handleSubmit. cbn.
    destruct (negb (str_truthy (trim _))); [done|].
    destruct (negb (str_truthy (trim _))); [done|].
    destruct (negb _ && negb _); [done|].
    destruct (String.eqb _ "new" && _).
    + destruct topicCreated as [d | err]; [|done].
      destruct postCreated; done.
    + destruct postCreated; done.
Qed.

Lemma str_truthy_empty (s : string) : str_truthy s = false -> s = "".
Proof.
  unfold str_truthy. destruct (String.eqb_spec s ""); [done|discriminate].
Qed.

Lemma or_else_is_truthy (d : option json) (fallback : json) :
  truthy (Some fallback) = true -> truthy (Some (or_else d fallback)) = true.
Proof.
  intros Hf. unfold or_else. destruct d as [v|]; [|done].
  by destruct (truthy (Some v)) eqn:Hv.
Qed.

Lemma content_counter_is_exact_and_bounded_witness :
  let st := foldl (fun s e => CreatePost.handle e s) (CreatePost.initial None)
                  [CreatePost.TypeTitle "Budget vote";
                   CreatePost.TypeContent "The council votes on Tuesday."] in
  CreatePost.charCount st = 29%nat
  /\ CreatePost.handleContentChange
       (String.concat "" (repeat "0123456789" 501)) st = st.
Proof.
  intros st.
  destruct (content_counter_is_exact_and_bounded None
              [CreatePost.TypeTitle "Budget vote";
               CreatePost.TypeContent "The council votes on Tuesday."])
    as (Hcount & _ & Hlong & _).
  fold st in Hcount, Hlong. split.
  - rewrite Hcount. reflexivity.
  - apply Hlong. vm_compute. lia.
Defined.

(** X21. The post form sends nothing while it is incomplete.  With a
    blank title, a blank content, or neither a topic nor a new topic name,
    a submission leaves the world as it is, does not navigate, does not
    switch the spinner on and shows the message of the first check that
    fails: title, then content, then topic.  And a visitor without a stored
    token is sent to "/" when the page opens, before any topic is asked
    for. *)
Theorem post_form_sends_nothing_while_incomplete
    (w : world) (st : CreatePost.state)
    (topicCreated : reply topic_created) (postCreated : reply json) :
  let f := CreatePost.formData st in
  let m := CreatePost.handleSubmit topicCreated postCreated st in
  let shows msg :=
    m w = (CreatePost.setError (JStr msg) st, None, w) in
  (trim (CreatePost.title f) = "" -> shows "Title is required")
  /\ (trim (CreatePost.title f) ≠ "" -> trim (CreatePost.content f) = "" ->
        shows "Content is required")
  /\ (trim (CreatePost.title f) ≠ "" -> trim (CreatePost.content f) ≠ "" ->
        CreatePost.topic f = "" -> CreatePost.newTopicName st = "" ->
        shows "Please select a topic or create a new one")
  /\ (forall topics,
        opt_truthy (localStorage w !! "authToken") = false ->
        CreatePost.mount topics st w = (st, Some "/", w)).
Proof.
  intros f m shows. subst f m shows. cbn beta.
  destruct st as [[t c tp tg fs] ts e ld n nt].
  unfold CreatePost.handleSubmit, CreatePost.setError. cbn.
  split; [|split; [|split]].
  - intros ->. reflexivity.
  - intros Ht ->. by rewrite (str_truthy_ne _ Ht).
  - intros Ht Hc -> ->. by rewrite (str_truthy_ne _ Ht), (str_truthy_ne _ Hc).
  - intros topics Htok. unfold CreatePost.mount. run. by rewrite Htok.
Qed.

Lemma post_form_sends_nothing_while_incomplete_witness :
  let st := CreatePost.handleInputChange CreatePost.Title "Budget vote"
              (CreatePost.initial None) in
  CreatePost.handleSubmit (Resolved (TopicCreated (JNum 3))) (Resolved JNull) st
    (page_load ∅)
  = (CreatePost.setError (JStr "Content is required") st, None, page_load ∅).
Proof.
  intros st.
  destruct (post_form_sends_nothing_while_incomplete (page_load ∅) st
              (Resolved (TopicCreated (JNum 3))) (Resolved JNull))
    as (_ & Hcontent & _).
  apply Hcontent; [discriminate|reflexivity].
Defined.

Lemma handleSubmit_valid (w : world) (st : CreatePost.state)
    (topicCreated : reply topic_created) (postCreated : reply json) :
  let f := CreatePost.formData st in
  let token := localStorage w !! "authToken" in
  let name := trim (CreatePost.newTopicName st) in
  trim (CreatePost.title f) ≠ "" ->
  trim (CreatePost.content f) ≠ "" ->
  CreatePost.topic f ≠ "" \/ CreatePost.newTopicName st ≠ "" ->
  CreatePost.handleSubmit topicCreated postCreated st w
  = let ended (e : json) :=
      CreatePost.State f (CreatePost.topics st) e false
                       (CreatePost.charCount st) (CreatePost.newTopicName st) in
    let post (topicId : json) (w0 : world) :=
      match postCreated with
      | Resolved _ =>
          (ended (JStr ""), Some "/",
           with_requests [create_post_request f topicId token] w0)
      | Rejected err =>
          (ended (CreatePost.failure err), None,
           with_requests [create_post_request f topicId token] w0)
      end in
    if String.eqb (CreatePost.topic f) "new" && str_truthy name then
      match topicCreated with
      | Resolved d =>
          post (created_id d) (with_requests [create_topic_request name token] w)
      | Rejected err =>
          (ended (CreatePost.failure err), None,
           with_requests [create_topic_request name token] w)
      end
    else post (JStr (CreatePost.topic f)) w.
Proof.
  intros f token name Ht Hc Htopic. subst f token name.
  destruct st as [[t c tp tg fs] ts e ld n nt].
  cbn [CreatePost.formData CreatePost.title CreatePost.content CreatePost.topic
       CreatePost.newTopicName CreatePost.topics CreatePost.charCount] in *.
  assert (Hguard : negb (str_truthy tp) && negb (str_truthy nt) = false).
  { destruct Htopic as [H | H]; rewrite (str_truthy_ne _ H);
      [done | by rewrite andb_false_r]. }
  unfold CreatePost.handleSubmit, CreatePost.setError, CreatePost.setLoading.
  cbn [CreatePost.formData CreatePost.title CreatePost.content CreatePost.topic
       CreatePost.newTopicName CreatePost.topics CreatePost.charCount
       CreatePost.error CreatePost.loading].
  rewrite (str_truthy_ne _ Ht), (str_truthy_ne _ Hc), Hguard.
  cbn [negb].
  destruct (String.eqb tp "new" && str_truthy (trim nt)).
  - destruct topicCreated as [d | terr]; [destruct postCreated|]; reflexivity.
  - destruct postCreated; reflexivity.
Qed.

(** X22. What a complete post form sends.  When the topic is "new" and
    the new topic's name is not blank, the topic is created first, under
    the trimmed name, and the post is then created under the id of the
    reply; a rejected topic creation stops there.  In every other case the
    post alone is created, under the topic value of the form, which is
    still the word "new" when the name of the new topic was blank.  The
    form navigates to "/" exactly when the post creation resolved;
    otherwise it shows a truthy error; either way the spinner is off and
    the form data are kept. *)
Theorem post_form_requests (w : world) (st : CreatePost.state) :
  let f := CreatePost.formData st in
  let token := localStorage w !! "authToken" in
  let name := trim (CreatePost.newTopicName st) in
  trim (CreatePost.title f) ≠ "" ->
  trim (CreatePost.content f) ≠ "" ->
  CreatePost.topic f ≠ "" \/ CreatePost.newTopicName st ≠ "" ->
  (CreatePost.topic f = "new" -> name ≠ "" ->
     (forall d postCreated,
        network (exec (CreatePost.handleSubmit (Resolved d) postCreated st) w)
        = network w ++ [create_topic_request name token;
                        create_post_request f (created_id d) token])
     /\ (forall err postCreated,
           let m := CreatePost.handleSubmit (Rejected err) postCreated st in
           network (exec m w) = network w ++ [create_topic_request name token]
           /\ (eval m w).2 = None
           /\ CreatePost.error (eval m w).1 = CreatePost.failure err))
  /\ (CreatePost.topic f ≠ "new" \/ name = "" ->
      forall topicCreated postCreated,
        network (exec (CreatePost.handleSubmit topicCreated postCreated st) w)
        = network w ++ [create_post_request f (JStr (CreatePost.topic f)) token])
  /\ (forall topicCreated postCreated,
        let m := CreatePost.handleSubmit topicCreated postCreated st in
        CreatePost.loading (eval m w).1 = false
        /\ CreatePost.formData (eval m w).1 = f
        /\ session (exec m w) = session w
        /\ ((eval m w).2 = Some "/" \/
            (eval m w).2 = None /\ truthy (Some (CreatePost.error (eval m w).1)) = true)
        /\ ((eval m w).2 = Some "/" -> exists v, postCreated = Resolved v)).
Proof.
  intros f token name Ht Hc Htopic.
  pose proof (fun tc pc => handleSubmit_valid w st tc pc Ht Hc Htopic) as Hrun.
  cbv zeta in Hrun. fold f token name in Hrun.
  split; [|split].
  - intros Hnew Hname.
    assert (Hyes : String.eqb (CreatePost.topic f) "new" && str_truthy name = true).
    { by rewrite Hnew, (str_truthy_ne _ Hname). }
    split.
    + intros d postCreated. unfold exec. rewrite Hrun, Hyes.
      destruct postCreated; cbn; by rewrite <- app_assoc.
    + intros err postCreated m. subst m. unfold exec, eval.
      rewrite Hrun, Hyes. done.
  - intros Hor topicCreated postCreated.
    assert (Hno : String.eqb (CreatePost.topic f) "new" && str_truthy name = false).
    { destruct Hor as [Hne | Hblank]; [|by rewrite Hblank, andb_false_r].
      by destruct (String.eqb_spec (CreatePost.topic f) "new"). }
    unfold exec. rewrite Hrun, Hno. by destruct postCreated.
  - intros topicCreated postCreated m. subst m. unfold exec, eval. rewrite Hrun.
    assert (Hfail : forall err, truthy (Some (CreatePost.failure err)) = true).
    { intros err. unfold CreatePost.failure. by do 2 apply or_else_is_truthy. }
    destruct (String.eqb (CreatePost.topic f) "new" && str_truthy name);
      [destruct topicCreated as [d | terr]|];
      try destruct postCreated as [v | perr];
      cbn [fst snd CreatePost.loading CreatePost.formData CreatePost.error
           with_requests guestMode currentUsername localStorage session];
      repeat split; eauto; try done.
Qed.

Lemma post_form_requests_witness :
  let st := CreatePost.setNewTopicName "  "
              (CreatePost.handleInputChange CreatePost.Topic "new"
                 (CreatePost.handleContentChange "The council votes on Tuesday."
                    (CreatePost.handleInputChange CreatePost.Title "Budget vote"
                       (CreatePost.initial None)))) in
  network (exec (CreatePost.handleSubmit (Resolved (TopicCreated (JNum 3)))
                   (Resolved JNull) st)
                (page_load ∅))
  = [create_post_request (CreatePost.formData st) (JStr "new") None].
Proof.
  intros st.
  destruct (post_form_requests (page_load ∅) st) as (_ & Hplain & _);
    [discriminate | discriminate | by left |].
  apply Hplain. by right.
Defined.

(** *** Tags *)

Lemma of_codes_codes (s : string) : of_codes (codes s) = s.
Proof.
  unfold of_codes, codes. rewrite map_map.
  rewrite (map_ext _ id) by (intros a; apply ascii_N_embedding).
  rewrite map_id. apply String.string_of_list_ascii_of_string.
Qed.

Lemma codes_bounded (s : string) : Forall (fun n => (n < 256)%N) (codes s).
Proof.
  unfold codes. apply Forall_forall. intros n Hn.
  apply list_elem_of_In, in_map_iff in Hn as (a & <- & _).
  apply N_ascii_bounded.
Qed.

Lemma codes_of_codes (l : list N) :
  Forall (fun n => (n < 256)%N) l -> codes (of_codes l) = l.
Proof.
  intros Hl. unfold of_codes, codes.
  rewrite String.list_ascii_of_string_of_list_ascii, map_map.
  induction Hl as [|n l Hn Hl IH]; [done|].
  cbn. by rewrite IH, N_ascii_embedding.
Qed.

Lemma strip_suffix (fwd : bool) (n : nat) (l : list N) :
  (length l <= n)%nat -> strip fwd l `suffix_of` l.
Proof.
  revert l. induction n as [|n IH]; intros l Hl.
  { destruct l; [done | cbn in Hl; lia]. }
  destruct l as [|a l1]; [done|]. cbn [strip]. cbn in Hl.
  destruct (ws1 a).
  { apply suffix_cons_r, IH. lia. }
  destruct l1 as [|b l2]; [done|]. cbn in Hl.
  destruct (if fwd then ws2 a b else ws2 b a).
  { do 2 apply suffix_cons_r. apply IH. lia. }
  destruct l2 as [|c l3]; [done|]. cbn in Hl.
  destruct (if fwd then ws3 a b c else ws3 c b a); [|done].
  do 3 apply suffix_cons_r. apply IH. lia.
Qed.

Lemma strip_length (fwd : bool) (l : list N) :
  (length (strip fwd l) <= length l)%nat.
Proof. apply suffix_length, (strip_suffix fwd (length l)). lia. Qed.

Lemma strip_idempotent (fwd : bool) (n : nat) (l : list N) :
  (length l <= n)%nat -> strip fwd (strip fwd l) = strip fwd l.
Proof.
  revert l. induction n as [|n IH]; intros l Hl.
  { destruct l; [done | cbn in Hl; lia]. }
  destruct l as [|a l1]; [done|]. cbn in Hl.
  cbn [strip]. destruct (ws1 a) eqn:E1.
  { apply IH. lia. }
  destruct l1 as [|b l2]; [cbn; by rewrite E1|]. cbn in Hl.
  destruct (if fwd then ws2 a b else ws2 b a) eqn:E2.
  { apply IH. lia. }
  destruct l2 as [|c l3]; [cbn; by rewrite E1, E2|]. cbn in Hl.
  destruct (if fwd then ws3 a b c else ws3 c b a) eqn:E3.
  { apply IH. lia. }
  cbn. by rewrite E1, E2, E3.
Qed.

(** A sequence without white space in front keeps that when it is cut
    short at the back. *)
Lemma strip_fixed_prefix (fwd : bool) (l t : list N) :
  strip fwd l = l -> t `prefix_of` l -> strip fwd t = t.
Proof.
  intros Hfix [k ->].
  destruct t as [|a t]; [done|].
  cbn [app strip] in Hfix. cbn [strip].
  destruct (ws1 a).
  { pose proof (strip_length fwd (t ++ k)) as Hlen.
    rewrite Hfix in Hlen. cbn in Hlen. lia. }
  destruct t as [|b t]; [done|]. cbn [app] in Hfix.
  destruct (if fwd then ws2 a b else ws2 b a).
  { pose proof (strip_length fwd (t ++ k)) as Hlen.
    rewrite Hfix in Hlen. cbn in Hlen. lia. }
  destruct t as [|c t]; [done|]. cbn [app] in Hfix.
  destruct (if fwd then ws3 a b c else ws3 c b a); [|done].
  pose proof (strip_length fwd (t ++ k)) as Hlen.
  rewrite Hfix in Hlen. cbn in Hlen. lia.
Qed.

Lemma trim_codes (s : string) :
  codes (trim s) = rev (strip false (rev (strip true (codes s)))).
Proof.
  unfold trim. apply codes_of_codes.
  apply Forall_forall. intros n Hn.
  apply list_elem_of_In, in_rev, list_elem_of_In in Hn.
  pose proof (strip_suffix false _ _ (le_n _) : strip false (rev (strip true (codes s)))
                `suffix_of` rev (strip true (codes s))) as [p1 H1].
  assert (Hn1 : n ∈ rev (strip true (codes s))).
  { rewrite H1. apply elem_of_app. by right. }
  apply list_elem_of_In, in_rev, list_elem_of_In in Hn1.
  pose proof (strip_suffix true _ _ (le_n _) : strip true (codes s) `suffix_of` codes s)
    as [p2 H2].
  pose proof (codes_bounded s) as Hb. rewrite H2 in Hb.
  apply Forall_app in Hb as [_ Hb].
  by apply (proj1 (Forall_forall _ _) Hb).
Qed.

Lemma trim_idempotent (s : string) : trim (trim s) = trim s.
Proof.
  set (l1 := strip true (codes s)).
  set (u := strip false (rev l1)).
  assert (Hcodes : codes (trim s) = rev u) by apply trim_codes.
  assert (Hfront : strip true (rev u) = rev u).
  { apply (strip_fixed_prefix true l1).
    - apply (strip_idempotent true (length (codes s))). lia.
    - destruct (strip_suffix false _ _ (le_n _) : u `suffix_of` rev l1) as [p Hp].
      exists (rev p). rewrite <- (rev_involutive l1), Hp, rev_app_distr. done. }
  unfold trim at 1. rewrite Hcodes, Hfront, rev_involutive.
  unfold u at 1. rewrite (strip_idempotent false (length (rev l1))) by lia.
  reflexivity.
Qed.

Lemma trim_elements (s : string) (c : ascii) :
  c ∈ String.list_ascii_of_string (trim s) -> c ∈ String.list_ascii_of_string s.
Proof.
  intros Hc.
  assert (Hn : N_of_ascii c ∈ codes (trim s)).
  { unfold codes. apply list_elem_of_In, in_map. by apply list_elem_of_In. }
  rewrite trim_codes in Hn.
  apply list_elem_of_In, in_rev, list_elem_of_In in Hn.
  destruct (strip_suffix false _ _ (le_n _) : strip false (rev (strip true (codes s)))
              `suffix_of` rev (strip true (codes s))) as [p1 H1].
  assert (Hn1 : N_of_ascii c ∈ rev (strip true (codes s))).
  { rewrite H1. apply elem_of_app. by right. }
  apply list_elem_of_In, in_rev, list_elem_of_In in Hn1.
  destruct (strip_suffix true _ _ (le_n _) : strip true (codes s) `suffix_of` codes s)
    as [p2 H2].
  assert (Hn2 : N_of_ascii c ∈ codes s).
  { rewrite H2. apply elem_of_app. by right. }
  unfold codes in Hn2.
  apply list_elem_of_In, in_map_iff in Hn2 as (c' & Heq & Hin).
  apply list_elem_of_In.
  replace c with c'; [done|].
  by rewrite <- (ascii_N_embedding c'), Heq, ascii_N_embedding.
Qed.

Lemma split_nonempty (sep : ascii) (s : string) : split sep s ≠ [].
Proof.
  destruct s as [|c s]; cbn; [done|].
  destruct (Ascii.eqb c sep); [done|]. by destruct (split sep s).
Qed.

Lemma split_pieces (sep : ascii) (s piece : string) :
  piece ∈ split sep s -> sep ∉ String.list_ascii_of_string piece.
Proof.
  revert piece. induction s as [|c s IH]; intros piece; cbn.
  { intros ->%list_elem_of_singleton. cbn. apply not_elem_of_nil. }
  destruct (Ascii.eqb_spec c sep) as [-> | Hne].
  - intros [-> | Hin]%elem_of_cons; [cbn; apply not_elem_of_nil | by apply IH].
  - destruct (split sep s) as [|h rest] eqn:Hs.
    { by destruct (split_nonempty sep s). }
    intros [-> | Hin]%elem_of_cons.
    + cbn. apply not_elem_of_cons. split; [done|].
      apply IH. by left.
    + apply IH. by right.
Qed.

Lemma split_concat (sep : ascii) (s : string) :
  String.concat (String sep "") (split sep s) = s.
Proof.
  induction s as [|c s IH]; [done|]. cbn [split].
  destruct (Ascii.eqb_spec c sep) as [-> | Hne].
  - pose proof (split_nonempty sep s) as Hne.
    destruct (split sep s) as [|h rest]; [done|].
    cbn in *. by rewrite IH.
  - pose proof (split_nonempty sep s) as Hne'.
    destruct (split sep s) as [|h rest]; [done|].
    destruct rest as [|h2 rest]; cbn in *; by rewrite <- IH.
Qed.

(** X23. The tags that go into a new post.  The tag field is cut at its
    commas (the pieces, joined by commas again, are the field).  Every tag
    sent is one of these pieces trimmed; it is never empty, carries no
    white space at either end (trimming it again changes nothing) and has
    no comma in it.  An empty tag field sends no [tags] entry at all, while
    a field of commas and blanks sends an empty list. *)
Theorem tags_are_trimmed_pieces (tags : string) :
  String.concat "," (split "," tags) = tags
  /\ (forall t, t ∈ CreatePost.tag_list tags ->
        t ≠ ""
        /\ trim t = t
        /\ (","%char ∉ String.list_ascii_of_string t)
        /\ (exists piece, piece ∈ split "," tags /\ t = trim piece))
  /\ (forall f topicId, CreatePost.tags f = "" ->
        get "tags" (Some (CreatePost.postData f topicId)) = None)
  /\ (forall f topicId, CreatePost.tags f ≠ "" ->
        get "tags" (Some (CreatePost.postData f topicId))
        = Some (JArr (map JStr (CreatePost.tag_list (CreatePost.tags f)))))
  /\ CreatePost.tag_list " , ,," = [].
Proof.
  split; [apply split_concat|].
  split; [|split; [|split]].
  - intros t Ht. unfold CreatePost.tag_list in Ht.
    apply list_elem_of_In, filter_In in Ht as [Hin Htruthy].
    apply in_map_iff in Hin as (piece & <- & Hpiece).
    apply list_elem_of_In in Hpiece.
    split; [by apply str_truthy_nonempty|].
    split; [apply trim_idempotent|].
    split; [|eauto].
    intros Hc%trim_elements. by apply (split_pieces "," tags piece).
  - intros f topicId Hempty. unfold CreatePost.postData. by rewrite Hempty.
  - intros f topicId Hne. unfold CreatePost.postData.
    by rewrite (str_truthy_ne _ Hne).
  - reflexivity.
Qed.

Lemma tags_are_trimmed_pieces_witness :
  CreatePost.tag_list " budget , ,council" = ["budget"; "council"]
  /\ trim "council" = "council".
Proof.
  split; [reflexivity|].
  destruct (tags_are_trimmed_pieces " budget , ,council") as (_ & Htags & _).
  apply Htags. by apply (bool_decide_unpack _).
Defined.

(** ** App.js and components/Navbar.js *)

Lemma handleSubmit_success_token (w : world) (st : Login.state)
    (registered : reply unit) (tok : string) :
  let m := Login.handleSubmit registered (Resolved (LoginData tok)) st in
  (eval m w).2 = true -> localStorage (exec m w) !! "authToken" = Some tok.
Proof.
  destruct st as [mode [un em pw pw2] err0 ld].
  unfold Login.handleSubmit. cbn [Login.isLogin Login.formData Login.setError
    Login.setLoading Login.username Login.password Login.password2 Login.email
    Login.error Login.loading].
  destruct mode.
  - run. intros _. rewrite lookup_insert_ne by done. apply lookup_insert_eq.
  - destruct (String.eqb pw pw2); cbn; [|done].
    destruct registered as [u | rerr]; run; [|done].
    intros _. rewrite lookup_insert_ne by done. apply lookup_insert_eq.
Qed.

Lemma App_initial_flag (prefersDark : bool) (w : world) :
  App.isAuthenticated (eval (App.initial prefersDark) w)
  = eval authService.isAuthenticated w.
Proof.
  unfold App.initial, themeService.isDarkMode, authService.isAuthenticated,
    eval, mbind, M_bind, mret, M_ret, getItem, get_guestMode.
  by destruct (opt_truthy (localStorage w !! "theme")).
Qed.

(** X24. The login flag that the app keeps for its routes follows the
    session store.  It starts as [isAuthenticated()].  When the login page
    reports success the app sets it, and [isAuthenticated()] holds as well:
    always after a guest entry, and after a form submission answered with
    a non-empty token, in which case it also holds after a reload.  After
    the navbar's logout the flag is off and [isAuthenticated()] is false. *)
Theorem app_login_flag_follows_the_session
    (w : world) (prefersDark : bool) (app : App.state) :
  App.isAuthenticated (eval (App.initial prefersDark) w)
  = eval authService.isAuthenticated w
  /\ (eval Login.handleGuestMode w = true
      /\ App.isAuthenticated (App.handleLoginSuccess app) = true
      /\ eval authService.isAuthenticated (exec Login.handleGuestMode w) = true)
  /\ (forall st registered tok, tok ≠ "" ->
        let m := Login.handleSubmit registered (Resolved (LoginData tok)) st in
        (eval m w).2 = true ->
        eval authService.isAuthenticated (exec m w) = true
        /\ App.isAuthenticated
             (eval (App.initial prefersDark) (page_load (localStorage (exec m w))))
           = true)
  /\ (App.isAuthenticated (eval (Navbar.handleLogout app) w).1 = false
      /\ eval authService.isAuthenticated (exec (Navbar.handleLogout app) w) = false).
Proof.
  split; [apply App_initial_flag|]. split; [|split].
  - split; [reflexivity|]. split; [reflexivity|].
    unfold Login.handleGuestMode, exec, mbind, M_bind, mret, M_ret.
    rewrite loginAsGuest_spec. cbn [snd]. rewrite isAuthenticated_spec.
    cbn [guestMode]. apply orb_true_r.
  - intros st registered tok Htok m Hok.
    pose proof (handleSubmit_success_token w st registered tok Hok) as Hstored.
    fold m in Hstored.
    rewrite App_initial_flag, !isAuthenticated_spec.
    cbn [page_load localStorage]. rewrite Hstored. cbn.
    by rewrite (str_truthy_ne _ Htok).
  - split; [reflexivity|].
    unfold Navbar.handleLogout, App.handleLogout, exec, mbind, M_bind, mret, M_ret.
    rewrite !logout_spec. cbn [snd]. rewrite isAuthenticated_spec.
    cbn [guestMode localStorage].
    rewrite lookup_delete_ne by done. by rewrite lookup_delete_eq.
Qed.

Lemma app_login_flag_follows_the_session_witness :
  let st := Login.State true (Login.Form "alice" "" "secret" "") "" false in
  eval authService.isAuthenticated
    (exec (Login.handleSubmit (Resolved tt) (Resolved (LoginData "9944b09199c6")) st)
          (page_load ∅))
  = true.
Proof.
  intros st.
  destruct (app_login_flag_follows_the_session (page_load ∅) false (App.State false false))
    as (_ & _ & Hform & _).
  apply (Hform st (Resolved tt) "9944b09199c6"); [discriminate|reflexivity].
Defined.

(** ** The string helpers on concrete inputs *)

(** Five letters; one letter of two bytes; one emoji of four bytes. *)
Example utf16_length_values :
  utf16_length "hello" = 5%nat
  /\ utf16_length (String "195" (String "169" "")) = 1%nat
  /\ utf16_length (String "240" (String "159" (String "145" (String "141" "")))) = 2%nat
  /\ utf16_length "" = 0%nat.
Proof. repeat split. Qed.

Example split_values :
  split "," "a,b" = ["a"; "b"]
  /\ split "," "" = [""]
  /\ split "," "a," = ["a"; ""]
  /\ split "," ",," = [""; ""; ""].
Proof. repeat split. Qed.

Example remove_middle_attachment :
  CreatePost.filter_index (fun i => negb (i =? 1)%nat) 0 ["a.png"; "b.pdf"; "c.mp4"]
  = ["a.png"; "c.mp4"].
Proof. reflexivity. Qed.

Example apply_dark_then_light :
  applyTheme themeService.lightTheme (applyTheme themeService.darkTheme ∅)
    !! "--color-warning"
  = Some "#A84B2F".
Proof. reflexivity. Qed.
